(** * LeaseWatch: parsing, aggregation and error handling

    A shallow embedding of the data-processing core of LeaseWatch
    ([DataProcessor] in dataProcessor.ts), of the two site extractors
    [scrapeCamden] and [scrapeColumns], of the main entry point's
    collection and aggregation phases and of [StorageService]'s save and
    load operations.

    JavaScript strings are lists of ASCII characters; JavaScript numbers are
    modelled by [num]: a finite value as an exact rational, the two
    infinities and NaN.  Neither the rounding nor the overflow of binary
    floating point is modelled: every value the claims below mention is
    exact in this model, and the properties of the parsers and of the
    averages allow the infinity a double overflows to, or bound the length
    of the texts that are parsed. *)

From Stdlib Require Import List Bool ZArith QArith Qround Qabs Lia Lqa.
From Stdlib Require Import String Ascii.
Import ListNotations.
Open Scope Z_scope.

(* ------------------------------------------------------------------ *)
(** ** Characters and strings *)

Definition chars (s : string) : list ascii := list_ascii_of_string s.

Definition is_digit (c : ascii) : bool :=
  let n := nat_of_ascii c in (Nat.leb 48 n && Nat.leb n 57)%bool.

(** [\s] restricted to ASCII: space, \t, \n, \v, \f, \r. *)
Definition is_space (c : ascii) : bool :=
  let n := nat_of_ascii c in
  (Nat.eqb n 32 || (Nat.leb 9 n && Nat.leb n 13))%bool.

(** [String.prototype.toLowerCase] on ASCII letters. *)
Definition to_lower (c : ascii) : ascii :=
  let n := nat_of_ascii c in
  if (Nat.leb 65 n && Nat.leb n 90)%bool then ascii_of_nat (n + 32) else c.

Definition toLowerCase (s : list ascii) : list ascii := map to_lower s.

Fixpoint starts_with (p s : list ascii) : bool :=
  match p, s with
  | [], _ => true
  | a :: p', b :: s' => (Ascii.eqb a b && starts_with p' s')%bool
  | _ :: _, [] => false
  end.

(** [String.prototype.includes]. *)
Fixpoint includes (s p : list ascii) : bool :=
  (starts_with p s ||
   match s with [] => false | _ :: s' => includes s' p end)%bool.

(* ------------------------------------------------------------------ *)
(** ** Regular expressions as JavaScript matches them

    A backtracking matcher in continuation-passing style with JavaScript's
    leftmost, greedy semantics.  Only capture group 1 is recorded, which is
    the only group the code reads.  [fuel] bounds the recursion depth. *)

Inductive regex :=
| RChar (p : ascii -> bool)
| REps
| RSeq (r1 r2 : regex)
| RAlt (r1 r2 : regex)
| RStar (r : regex)
| RGroup (r : regex).

Definition capture := option (list ascii).

(** A successful match: the input left after it, and the capture. *)
Definition mresult := (list ascii * capture)%type.

Fixpoint rmatch (fuel : nat) (r : regex) (s : list ascii) (cap : capture)
  (k : list ascii -> capture -> option mresult) : option mresult :=
  match fuel with
  | O => None
  | S f =>
    match r with
    | REps => k s cap
    | RChar p =>
      match s with
      | c :: t => if p c then k t cap else None
      | [] => None
      end
    | RSeq r1 r2 => rmatch f r1 s cap (fun s' c' => rmatch f r2 s' c' k)
    | RAlt r1 r2 =>
      match rmatch f r1 s cap k with
      | Some x => Some x
      | None => rmatch f r2 s cap k
      end
    | RStar r1 =>
      match rmatch f r1 s cap
              (fun s' c' => if Nat.ltb (List.length s') (List.length s)
                            then rmatch f (RStar r1) s' c' k else None) with
      | Some x => Some x
      | None => k s cap
      end
    | RGroup r1 =>
      rmatch f r1 s cap
        (fun s' _ => k s' (Some (firstn (List.length s - List.length s')%nat s)))
    end
  end.

Definition rfuel (s : list ascii) : nat := (200 + 40 * List.length s)%nat.

(** [String.prototype.match] with a non-global regex: the first position
    where the expression matches; the result is capture group 1. *)
Definition match_at (r : regex) (s : list ascii) : option mresult :=
  rmatch (rfuel s) r s None (fun rest c => Some (rest, c)).

Fixpoint search_from (r : regex) (s : list ascii) : option capture :=
  match match_at r s with
  | Some (_, c) => Some c
  | None => match s with [] => None | _ :: t => search_from r t end
  end.

Definition str_match (r : regex) (s : list ascii) : option capture :=
  search_from r s.

(** [s.replace(/r/g, rep)]: every leftmost non-overlapping match replaced;
    after an empty match the scan moves on by one character. *)
Fixpoint replace_all_aux (fuel : nat) (r : regex) (rep s : list ascii)
  : list ascii :=
  match fuel with
  | O => s
  | S f =>
    match s with
    | [] => match match_at r [] with Some _ => rep | None => [] end
    | c :: t =>
      match match_at r s with
      | Some (rest, _) =>
        if Nat.ltb (List.length rest) (List.length s)
        then rep ++ replace_all_aux f r rep rest
        else rep ++ c :: replace_all_aux f r rep t
      | None => c :: replace_all_aux f r rep t
      end
    end
  end.

Definition replace_all (r : regex) (rep s : list ascii) : list ascii :=
  replace_all_aux (S (List.length s)) r rep s.

Definition RPlus (r : regex) : regex := RSeq r (RStar r).
Definition ROpt (r : regex) : regex := RAlt r REps.
Definition RDigit : regex := RChar is_digit.
Definition RSpace : regex := RChar is_space.
Definition RLit (c : ascii) : regex := RChar (Ascii.eqb c).

(** A literal word matched case-insensitively (flag [i]). *)
Fixpoint RWordCI (w : list ascii) : regex :=
  match w with
  | [] => REps
  | c :: w' => RSeq (RChar (fun x => Ascii.eqb (to_lower x) c)) (RWordCI w')
  end.

Definition RAlts (rs : list regex) : regex :=
  fold_right RAlt (RChar (fun _ => false)) rs.

(** [matches && matches[1]]: the capture of group 1 when it is non-empty. *)
Definition group1 (m : option capture) : option (list ascii) :=
  match m with
  | Some (Some ((_ :: _) as g)) => Some g
  | _ => None
  end.

(* ------------------------------------------------------------------ *)
(** ** JavaScript numbers *)

Inductive num := Fin (q : Q) | PInf | NInf | NaN.

Definition fin (q : Q) : num := Fin (Qred q).
Definition nz (z : Z) : num := fin (inject_Z z).

Definition Qlt_bool (x y : Q) : bool := negb (Qle_bool y x).

Definition num_lt (a b : num) : bool :=
  match a, b with
  | Fin x, Fin y => Qlt_bool x y
  | Fin _, PInf | NInf, Fin _ | NInf, PInf => true
  | _, _ => false
  end.
Definition num_gt (a b : num) : bool := num_lt b a.
Definition num_eqb (a b : num) : bool :=
  match a, b with
  | Fin x, Fin y => Qeq_bool x y
  | PInf, PInf | NInf, NInf => true
  | _, _ => false
  end.
Definition num_le (a b : num) : bool := (num_lt a b || num_eqb a b)%bool.
Definition isNaN (a : num) : bool := match a with NaN => true | _ => false end.

Definition num_add (a b : num) : num :=
  match a, b with
  | Fin x, Fin y => fin (x + y)
  | NaN, _ | _, NaN | PInf, NInf | NInf, PInf => NaN
  | PInf, _ | _, PInf => PInf
  | NInf, _ | _, NInf => NInf
  end.

Definition num_sign (q : Q) : comparison := Qcompare q 0.

Definition num_mul (a b : num) : num :=
  let inf_times s := match s with Gt => PInf | Lt => NInf | Eq => NaN end in
  let neg s := match s with Gt => Lt | Lt => Gt | Eq => Eq end in
  match a, b with
  | Fin x, Fin y => fin (x * y)
  | NaN, _ | _, NaN => NaN
  | PInf, Fin y | Fin y, PInf => inf_times (num_sign y)
  | NInf, Fin y | Fin y, NInf => inf_times (neg (num_sign y))
  | PInf, PInf | NInf, NInf => PInf
  | PInf, NInf | NInf, PInf => NInf
  end.

Definition num_div (a b : num) : num :=
  match a, b with
  | Fin x, Fin y =>
    if Qeq_bool y 0 then
      match num_sign x with Gt => PInf | Lt => NInf | Eq => NaN end
    else fin (x / y)
  | NaN, _ | _, NaN => NaN
  | Fin _, _ => fin 0
  | PInf, Fin y => match num_sign y with Lt => NInf | _ => PInf end
  | NInf, Fin y => match num_sign y with Lt => PInf | _ => NInf end
  | _, _ => NaN
  end.

(** [Math.round]: round half up. *)
Definition Math_round (a : num) : num :=
  match a with
  | Fin x => nz (Qfloor (x + (1 # 2)))
  | other => other
  end.

(** [Math.min(...xs)] and [Math.max(...xs)]. *)
Definition min_step (m x : num) : num :=
  if (isNaN m || isNaN x)%bool then NaN else if num_lt x m then x else m.
Definition max_step (m x : num) : num :=
  if (isNaN m || isNaN x)%bool then NaN else if num_gt x m then x else m.
Definition Math_min (xs : list num) : num := fold_left min_step xs PInf.
Definition Math_max (xs : list num) : num := fold_left max_step xs NInf.

(** [xs.reduce((a, b) => a + b, 0)]. *)
Definition sum (xs : list num) : num := fold_left num_add xs (fin 0).

(* ------------------------------------------------------------------ *)
(** ** [parseInt] and [parseFloat]

    They are applied here only to strings made of digits, commas and
    periods (after the commas have been removed); the model covers the
    leading-digits and decimal-point syntax those strings use. *)

Definition digit_val (c : ascii) : Z := Z.of_nat (nat_of_ascii c) - 48.

Fixpoint take_digits (s : list ascii) : list ascii * list ascii :=
  match s with
  | c :: t => if is_digit c then let (d, r) := take_digits t in (c :: d, r)
              else ([], s)
  | [] => ([], [])
  end.

Definition digits_Z (d : list ascii) : Z :=
  fold_left (fun acc c => 10 * acc + digit_val c) d 0.

Fixpoint trim_start (s : list ascii) : list ascii :=
  match s with
  | c :: t => if is_space c then trim_start t else s
  | [] => []
  end.

Definition parseInt (s : list ascii) : num :=
  match fst (take_digits (trim_start s)) with
  | [] => NaN
  | d => nz (digits_Z d)
  end.

Definition parseFloat (s : list ascii) : num :=
  let '(ip, rest) := take_digits (trim_start s) in
  let fp := match rest with
            | c :: t => if Ascii.eqb c "."%char then fst (take_digits t) else []
            | [] => []
            end in
  match ip, fp with
  | [], [] => NaN
  | _, _ => fin (inject_Z (digits_Z (ip ++ fp)) / inject_Z (10 ^ Z.of_nat (List.length fp)))
  end.

(* ------------------------------------------------------------------ *)
(** ** Small string helpers used by the parsers *)

Definition is_truthy_str (s : list ascii) : bool :=
  match s with [] => false | _ => true end.

(** [s.replace(/,/g, '')]. *)
Definition remove_commas (s : list ascii) : list ascii :=
  filter (fun c => negb (Ascii.eqb c ","%char)) s.

(** [s.split(sep)] for a one-character separator. *)
Fixpoint split_on (sep : ascii) (s : list ascii) : list (list ascii) :=
  match s with
  | [] => [[]]
  | c :: t =>
    if Ascii.eqb c sep then [] :: split_on sep t
    else match split_on sep t with
         | w :: ws => (c :: w) :: ws
         | [] => [[c]]
         end
  end.

(** [String.prototype.trim] (ASCII white space). *)
Definition trim (s : list ascii) : list ascii :=
  rev (trim_start (rev (trim_start s))).

Definition to_upper (c : ascii) : ascii :=
  let n := nat_of_ascii c in
  if (Nat.leb 97 n && Nat.leb n 122)%bool then ascii_of_nat (n - 32) else c.

Definition join (sep : list ascii) (ws : list (list ascii)) : list ascii :=
  match ws with
  | [] => []
  | w :: ws' => w ++ List.concat (map (fun x => sep ++ x) ws')
  end.

(* ------------------------------------------------------------------ *)
(** ** Field parsers ([DataProcessor], dataProcessor.ts) *)

Module DataProcessor.

(** The characters kept by "replace(/[^0-9,.]/g, '')". *)
Definition price_char (c : ascii) : bool :=
  (is_digit c || Ascii.eqb c ","%char || Ascii.eqb c "."%char)%bool.

(** Source regex: "/(\d+(?:,\d+)*(?:\.\d+)?)/" *)
Definition price_re : regex :=
  RGroup (RSeq (RPlus RDigit)
         (RSeq (RStar (RSeq (RLit ","%char) (RPlus RDigit)))
               (ROpt (RSeq (RLit "."%char) (RPlus RDigit))))).

Definition parsePrice (priceString : list ascii) : num :=
  if negb (is_truthy_str priceString) then nz 0 else
  let cleanPrice := filter price_char priceString in
  if includes cleanPrice ["-"%char] then
    let parts := split_on "-"%char cleanPrice in
    let prices := map (fun p => parseFloat (remove_commas p)) parts in
    Math_min (filter (fun p => negb (isNaN p)) prices)
  else
    match group1 (str_match price_re cleanPrice) with
    | Some m => parseFloat (remove_commas m)
    | None => nz 0
    end.

(** Source regex: "/(\d+(?:,\d+)*)/" *)
Definition sqft_re : regex :=
  RGroup (RSeq (RPlus RDigit) (RStar (RSeq (RLit ","%char) (RPlus RDigit)))).

Definition parseSquareFootage (sqftString : list ascii) : num :=
  if negb (is_truthy_str sqftString) then nz 0 else
  match group1 (str_match sqft_re sqftString) with
  | Some m => parseInt (remove_commas m)
  | None => nz 0
  end.

Definition word (s : string) : regex := RWordCI (chars s).

(** Source regex: "/(\d+)\s*(beds?|bedrooms?|br)/i" *)
Definition bed_re : regex :=
  RSeq (RGroup (RPlus RDigit))
  (RSeq (RStar RSpace)
        (RAlts [RSeq (word "bed") (ROpt (word "s"));
                RSeq (word "bedroom") (ROpt (word "s"));
                word "br"])).

Definition parseBedrooms (bedroomString : list ascii) : num :=
  if negb (is_truthy_str bedroomString) then nz 0 else
  if includes (toLowerCase bedroomString) (chars "studio") then nz 0 else
  match group1 (str_match bed_re bedroomString) with
  | Some m => parseInt m
  | None => nz 0
  end.

(** [(baths?|bathrooms?|ba)] with flag [i] *)
Definition bath_word_re : regex :=
  RAlts [RSeq (word "bath") (ROpt (word "s"));
         RSeq (word "bathroom") (ROpt (word "s"));
         word "ba"].

(** Source regex: "/(\d+\.5)\s*(baths?|bathrooms?|ba)/i" *)
Definition decimal_bath_re : regex :=
  RSeq (RGroup (RSeq (RPlus RDigit) (RSeq (RLit "."%char) (RLit "5"%char))))
       (RSeq (RStar RSpace) bath_word_re).

(** Source regex: "/(\d+)\s*(baths?|bathrooms?|ba)/i" *)
Definition whole_bath_re : regex :=
  RSeq (RGroup (RPlus RDigit)) (RSeq (RStar RSpace) bath_word_re).

Definition parseBathrooms (bathroomString : list ascii) : num :=
  if negb (is_truthy_str bathroomString) then nz 0 else
  match group1 (str_match decimal_bath_re bathroomString) with
  | Some m => parseFloat m
  | None =>
    match group1 (str_match whole_bath_re bathroomString) with
    | Some m => parseInt m
    | None => nz 0
    end
  end.

Inductive unit_type := apartment | townhome | studio.

Definition determineUnitType (name : list ascii) (bathrooms : num) : unit_type :=
  let lowerName := toLowerCase name in
  if includes lowerName (chars "studio") then studio
  else if (includes lowerName (chars "townhome")
           || includes lowerName (chars "townhouse"))%bool then townhome
  else if num_gt bathrooms (fin (5 # 2)) then townhome
  else apartment.

Definition calculatePricePerSqFt (price sqft : num) : num :=
  if (num_le price (nz 0) || num_le sqft (nz 0))%bool then nz 0
  else num_div (Math_round (num_mul (num_div price sqft) (nz 100))) (nz 100).

(** Source regex: "/\s+/g" *)
Definition spaces_re : regex := RPlus RSpace.

(** Source regex: "/\d+\s*(bed|bedroom|bath|bathroom|br|ba)\s*/gi" *)
Definition bedbath_re : regex :=
  RSeq (RPlus RDigit)
  (RSeq (RStar RSpace)
  (RSeq (RAlts [word "bed"; word "bedroom"; word "bath"; word "bathroom";
                word "br"; word "ba"])
        (RStar RSpace))).

(** Source regex: "/\d+,?\d*\s*sq\.?\s*ft\.?/gi" *)
Definition sqft_name_re : regex :=
  RSeq (RPlus RDigit) (RSeq (ROpt (RLit ","%char)) (RSeq (RStar RDigit)
  (RSeq (RStar RSpace) (RSeq (word "sq") (RSeq (ROpt (RLit "."%char))
  (RSeq (RStar RSpace) (RSeq (word "ft") (ROpt (RLit "."%char))))))))).

Definition is_digit_or_comma (c : ascii) : bool :=
  (is_digit c || Ascii.eqb c ","%char)%bool.

(** Source regex: "/from\s*\$[\d,]+/gi" *)
Definition from_re : regex :=
  RSeq (word "from") (RSeq (RStar RSpace)
  (RSeq (RLit "$"%char) (RPlus (RChar is_digit_or_comma)))).

(** Source regex: "/view\s*\d*\s*apartments?/gi" *)
Definition view_re : regex :=
  RSeq (word "view") (RSeq (RStar RSpace) (RSeq (RStar RDigit)
  (RSeq (RStar RSpace) (RSeq (word "apartment") (ROpt (word "s")))))).

(** [word.charAt(0).toUpperCase() + word.slice(1).toLowerCase()] *)
Definition capitalize (w : list ascii) : list ascii :=
  match w with
  | [] => []
  | c :: t => to_upper c :: toLowerCase t
  end.

Definition unknown_plan : list ascii := chars "Unknown Plan".

Definition cleanFloorPlanName (name : list ascii) : list ascii :=
  if negb (is_truthy_str name) then unknown_plan else
  let cleaned := trim (replace_all spaces_re [" "%char] name) in
  let cleaned := replace_all bedbath_re [] cleaned in
  let cleaned := replace_all sqft_name_re [] cleaned in
  let cleaned := replace_all from_re [] cleaned in
  let cleaned := replace_all view_re [] cleaned in
  let cleaned := join [" "%char] (map capitalize (split_on " "%char cleaned)) in
  match trim cleaned with
  | [] => unknown_plan
  | t => t
  end.

Definition RDigits2 : regex := RSeq RDigit (ROpt RDigit).

(** Source regex: "/\d{1,2}\/\d{1,2}\/\d{4}/" *)
Definition date_re : regex :=
  RSeq RDigits2 (RSeq (RLit "/"%char) (RSeq RDigits2 (RSeq (RLit "/"%char)
  (RSeq RDigit (RSeq RDigit (RSeq RDigit RDigit)))))).

Definition list_eqb (a b : list ascii) : bool :=
  String.eqb (string_of_list_ascii a) (string_of_list_ascii b).

Definition standardizeAvailability (availability : list ascii) : list ascii :=
  if negb (is_truthy_str availability) then chars "Contact for Availability" else
  let lower := toLowerCase availability in
  if (includes lower (chars "available now")
      || list_eqb lower (chars "available"))%bool then chars "Available Now"
  else if (includes lower (chars "not specified")
           || includes lower (chars "not available"))%bool
  then chars "Contact for Availability"
  else match group1 (str_match (RGroup date_re) availability) with
       | Some d => chars "Available " ++ d
       | None => availability
       end.

End DataProcessor.

(* ------------------------------------------------------------------ *)
(** ** Results of code that may throw *)

(** A thrown JavaScript error, identified by its message. *)
Definition js_error := list ascii.

Inductive res (A : Type) := Ok (a : A) | Err (e : js_error).
Arguments Ok {A} a.
Arguments Err {A} e.

(** [arr.reduce(f)] with no initial value: a TypeError on the empty array. *)
Definition reduce1 {A} (f : A -> A -> A) (l : list A) : res A :=
  match l with
  | [] => Err (chars "TypeError: Reduce of empty array with no initial value")
  | x :: t => Ok (fold_left f t x)
  end.

(* ------------------------------------------------------------------ *)
(** ** The clock: [new Date().toISOString()] and [toDateString()] *)

Definition ms_per_day : Z := 86400000.

(** Proleptic Gregorian date (year, month, day) of a day count since
    1970-01-01. *)
Definition civil_from_days (days : Z) : Z * Z * Z :=
  let z := days + 719468 in
  let era := z / 146097 in
  let doe := z - era * 146097 in
  let yoe := (doe - doe / 1460 + doe / 36524 - doe / 146096) / 365 in
  let y := yoe + era * 400 in
  let doy := doe - (365 * yoe + yoe / 4 - yoe / 100) in
  let mp := (5 * doy + 2) / 153 in
  let d := doy - (153 * mp + 2) / 5 + 1 in
  let m := if mp <? 10 then mp + 3 else mp - 9 in
  (if m <=? 2 then y + 1 else y, m, d).

Fixpoint digits_of_nat (fuel : nat) (n : Z) (acc : list ascii) : list ascii :=
  match fuel with
  | O => acc
  | S f =>
    let acc' := ascii_of_nat (Z.to_nat (48 + n mod 10)) :: acc in
    if n <? 10 then acc' else digits_of_nat f (n / 10) acc'
  end.

(** Decimal digits of [n >= 0], left-padded with zeros to [w]. *)
Definition pad (w : nat) (n : Z) : list ascii :=
  let d := digits_of_nat 20 n [] in
  repeat "0"%char (w - List.length d) ++ d.

(** The "YYYY-MM-DD" part of [toISOString], from the day count. *)
Definition iso_date_part (days : Z) : list ascii :=
  let '(y, m, d) := civil_from_days days in
  let year := if (0 <=? y) && (y <=? 9999) then pad 4 y
              else (if y <? 0 then "-"%char else "+"%char) :: pad 6 (Z.abs y) in
  year ++ "-"%char :: pad 2 m ++ "-"%char :: pad 2 d.

(** The "HH:mm:ss.sssZ" part, from the milliseconds into the day. *)
Definition iso_time_part (ms : Z) : list ascii :=
  pad 2 (ms / 3600000) ++ ":"%char :: pad 2 (ms / 60000 mod 60) ++ ":"%char ::
  pad 2 (ms / 1000 mod 60) ++ "."%char :: pad 3 (ms mod 1000) ++ ["Z"%char].

Definition toISOString (now : Z) : list ascii :=
  iso_date_part (now / ms_per_day) ++ "T"%char :: iso_time_part (now mod ms_per_day).

Definition day_names : list string :=
  ["Thu"; "Fri"; "Sat"; "Sun"; "Mon"; "Tue"; "Wed"]%string.
Definition month_names : list string :=
  ["Jan"; "Feb"; "Mar"; "Apr"; "May"; "Jun";
   "Jul"; "Aug"; "Sep"; "Oct"; "Nov"; "Dec"]%string.

Definition date_string_of_days (days : Z) : list ascii :=
  let '(y, m, d) := civil_from_days days in
  chars (nth (Z.to_nat (days mod 7)) day_names EmptyString) ++ " "%char ::
  chars (nth (Z.to_nat (m - 1)) month_names EmptyString) ++ " "%char ::
  pad 2 d ++ " "%char :: pad 4 y.

(** [toDateString] in UTC, e.g. "Thu Jan 01 1970". *)
Definition toDateString (now : Z) : list ascii :=
  date_string_of_days (now / ms_per_day).

(* ------------------------------------------------------------------ *)
(** ** Data model (types.ts of the enhanced version) *)

Record FloorPlan := mkFloorPlan {
  fp_name : list ascii;
  price : num;
  bedrooms : num;
  bathrooms : num;
  squareFootage : num;
  pricePerSqFt : num;
  amenities : list (list ascii);
  availability : list ascii;
  moveInDate : option (list ascii);
  propertyName : list ascii;
  propertyUrl : list ascii;
  unitType : option DataProcessor.unit_type
}.

Record PriceRange := mkPriceRange { pr_min : num; pr_max : num }.

Record BedroomDistribution := mkBedroomDistribution {
  bd_studio : nat; bd_oneBed : nat; bd_twoBed : nat;
  bd_threeBed : nat; bd_fourPlusBed : nat
}.

Record PropertySummary := mkPropertySummary {
  ps_propertyName : list ascii;
  totalFloorPlans : nat;
  priceRange : PriceRange;
  ps_avgPricePerSqFt : num;
  bedroomDistribution : BedroomDistribution;
  availableUnits : nat
}.

Record MarketSummary := mkMarketSummary {
  totalUnits : nat;
  avgRent : num;
  ms_avgPricePerSqFt : num;
  cheapestUnit : FloorPlan;
  mostExpensiveUnit : FloorPlan;
  bestValueUnit : FloorPlan
}.

Record DailyReport := mkDailyReport {
  date : list ascii;
  properties : list PropertySummary;
  allFloorPlans : list FloorPlan;
  marketSummary : MarketSummary
}.

(* ------------------------------------------------------------------ *)
(** ** Aggregator ([DataProcessor.createPropertySummary],
       [DataProcessor.createDailyReport]) *)

Module Aggregator.

Definition positive (x : num) : bool := num_gt x (nz 0).

(** [fp.bedrooms] compared with [===] by the [switch]. *)
Definition count_bedroom (acc : BedroomDistribution) (fp : FloorPlan)
  : BedroomDistribution :=
  let b := bedrooms fp in
  let '(mkBedroomDistribution s o t th f) := acc in
  if num_eqb b (nz 0) then mkBedroomDistribution (S s) o t th f
  else if num_eqb b (nz 1) then mkBedroomDistribution s (S o) t th f
  else if num_eqb b (nz 2) then mkBedroomDistribution s o (S t) th f
  else if num_eqb b (nz 3) then mkBedroomDistribution s o t (S th) f
  else mkBedroomDistribution s o t th (S f).

Definition is_available (fp : FloorPlan) : bool :=
  (includes (availability fp) (chars "Available")
   || includes (availability fp) (chars "/"))%bool.

Definition createPropertySummary (propertyName : list ascii)
  (floorPlans : list FloorPlan) : PropertySummary :=
  let prices := filter positive (map price floorPlans) in
  let pricesPerSqFt := filter positive (map pricePerSqFt floorPlans) in
  let bedroomCounts :=
    fold_left count_bedroom floorPlans (mkBedroomDistribution 0 0 0 0 0) in
  {| ps_propertyName := propertyName;
     totalFloorPlans := List.length floorPlans;
     priceRange := {| pr_min := Math_min prices; pr_max := Math_max prices |};
     ps_avgPricePerSqFt :=
       num_div (Math_round (num_mul (num_div (sum pricesPerSqFt)
                                       (nz (Z.of_nat (List.length pricesPerSqFt))))
                                    (nz 100))) (nz 100);
     bedroomDistribution := bedroomCounts;
     availableUnits := List.length (filter is_available floorPlans) |}.

(** The reducer of [cheapest] (key [price]) and of [bestValue]
    (key [pricePerSqFt]): [0] in the accumulator means "no candidate yet". *)
Definition pick_min (key : FloorPlan -> num) (min fp : FloorPlan) : FloorPlan :=
  if (positive (key fp)
      && (num_eqb (key min) (nz 0) || num_lt (key fp) (key min)))%bool
  then fp else min.

(** The reducer of [mostExpensive]. *)
Definition pick_max (max fp : FloorPlan) : FloorPlan :=
  if num_gt (price fp) (price max) then fp else max.

(** [new Date().toISOString().split('T')[0] || new Date().toDateString()];
    both clock reads are [now]. *)
Definition date_stamp (now : Z) : list ascii :=
  match split_on "T"%char (toISOString now) with
  | (_ :: _) as d :: _ => d
  | _ => toDateString now
  end.

Definition createDailyReport (propertySummaries : list PropertySummary)
  (allFloorPlans : list FloorPlan) (now : Z) : res DailyReport :=
  let prices := filter positive (map price allFloorPlans) in
  let pricesPerSqFt := filter positive (map pricePerSqFt allFloorPlans) in
  match reduce1 (pick_min price) allFloorPlans with
  | Err e => Err e
  | Ok cheapest =>
  match reduce1 pick_max allFloorPlans with
  | Err e => Err e
  | Ok mostExpensive =>
  match reduce1 (pick_min pricePerSqFt) allFloorPlans with
  | Err e => Err e
  | Ok bestValue =>
  Ok {| date := date_stamp now;
        properties := propertySummaries;
        allFloorPlans := allFloorPlans;
        marketSummary :=
          {| totalUnits := List.length allFloorPlans;
             avgRent := Math_round (num_div (sum prices)
                                      (nz (Z.of_nat (List.length prices))));
             ms_avgPricePerSqFt :=
               num_div (Math_round
                          (num_mul (num_div (sum pricesPerSqFt)
                                      (nz (Z.of_nat (List.length pricesPerSqFt))))
                                   (nz 100))) (nz 100);
             cheapestUnit := cheapest;
             mostExpensiveUnit := mostExpensive;
             bestValueUnit := bestValue |} |}
  end end end.

End Aggregator.

(* ------------------------------------------------------------------ *)
(** ** The entry point's aggregation phase ([main], index.ts) *)

Module Main.
Import Aggregator.

Definition camden_name : list ascii := chars "Camden Dunwoody".
Definition columns_name : list ascii := chars "The Columns at Lake Ridge".

(** Phase 2 of [main] on the floor plans collected in phase 1 (Camden's,
    then The Columns', then Drift's): [None] is the early [return] taken
    when no floor plan was found. *)
Definition main_phase2 (camdenPlans columnsPlans driftPlans : list FloorPlan)
  (now : Z) : res (option (list PropertySummary * DailyReport)) :=
  let allFloorPlans := camdenPlans ++ columnsPlans ++ driftPlans in
  if Nat.eqb (List.length allFloorPlans) 0 then Ok None else
  let cPlans := filter (fun fp => DataProcessor.list_eqb (propertyName fp) camden_name)
                       allFloorPlans in
  let lPlans := filter (fun fp => DataProcessor.list_eqb (propertyName fp) columns_name)
                       allFloorPlans in
  let summaries :=
    (if Nat.ltb 0 (List.length cPlans)
     then [createPropertySummary camden_name cPlans] else [])
    ++ (if Nat.ltb 0 (List.length lPlans)
        then [createPropertySummary columns_name lPlans] else []) in
  match createDailyReport summaries allFloorPlans now with
  | Ok r => Ok (Some (summaries, r))
  | Err e => Err e
  end.

End Main.

(* ------------------------------------------------------------------ *)
(** ** [parsePrice] as the specification words it

    "strip all non [0-9,.-] characters; if a range is present, return the
    minimum; else return the first numeric match with thousands separators
    removed; returns 0 if no digits found."  This is the reading the
    comment "Handle ranges like 1,583 - 1,650" in the source intends. *)

Module SpecModel.
Import DataProcessor.

Definition spec_price_char (c : ascii) : bool :=
  (price_char c || Ascii.eqb c "-"%char)%bool.

Definition parsePrice_spec (priceString : list ascii) : num :=
  let cleanPrice := filter spec_price_char priceString in
  if includes cleanPrice ["-"%char] then
    let parts := split_on "-"%char cleanPrice in
    let prices := map (fun p => parseFloat (remove_commas p)) parts in
    Math_min (filter (fun p => negb (isNaN p)) prices)
  else
    match group1 (str_match price_re cleanPrice) with
    | Some m => parseFloat (remove_commas m)
    | None => nz 0
    end.

End SpecModel.

(* ------------------------------------------------------------------ *)
(** ** Effects: environment, console log and exceptions

    [M E A] reads an environment [E] (the answers of the browser or of the
    file system), appends lines to the console log and may throw. *)

Module Effects.

Definition log_t := list (list ascii).

Definition M (E A : Type) := E -> log_t -> res A * log_t.

Definition ret {E A} (a : A) : M E A := fun _ l => (Ok a, l).

Definition bind {E A B} (m : M E A) (k : A -> M E B) : M E B :=
  fun env l =>
    match m env l with
    | (Ok a, l') => k a env l'
    | (Err x, l') => (Err x, l')
    end.

Definition throw {E A} (x : js_error) : M E A := fun _ l => (Err x, l).

Definition lift {E A} (r : res A) : M E A := fun _ l => (r, l).

(** A call that [await]s the environment's answer. *)
Definition call {E A} (f : E -> res A) : M E A := fun env l => (f env, l).

Definition asks {E A} (f : E -> A) : M E A := fun env l => (Ok (f env), l).

(** [console.log] / [console.error]. *)
Definition log {E} (s : list ascii) : M E unit := fun _ l => (Ok tt, l ++ [s]).

(** [try { m } catch (e) { h(e) }] *)
Definition try_catch {E A} (m : M E A) (h : js_error -> M E A) : M E A :=
  fun env l =>
    match m env l with
    | (Err x, l') => h x env l'
    | r => r
    end.

(** [try { m } finally { fin }]: an error thrown by [fin] replaces the
    outcome of [m]. *)
Definition try_finally {E A} (m : M E A) (fin : M E unit) : M E A :=
  fun env l =>
    let '(r, l') := m env l in
    match fin env l' with
    | (Ok _, l'') => (r, l'')
    | (Err x, l'') => (Err x, l'')
    end.

End Effects.

Notation "x <- m ;; k" := (Effects.bind m (fun x => k))
  (at level 61, m at next level, right associativity).
Notation "m ;;; k" := (Effects.bind m (fun _ => k))
  (at level 61, right associativity).

Definition is_ok {A} (r : res A) : bool := match r with Ok _ => true | Err _ => false end.

(* ------------------------------------------------------------------ *)
(** ** [scrapeColumns] (columns.ts)

    The browser is the environment: each awaited Playwright call answers
    with a value or throws.  [extractFloorPlanFromElement] wraps its whole
    body in [try]/[catch] returning [null], so for each element its outcome
    is a plain [option]; it is part of the element's answers. *)

Module Columns.
Import Effects.

Record TempPlan := mkTempPlan {
  tp_name : list ascii;
  tp_price : list ascii;
  tp_bedBathCount : list ascii;
  tp_squareFootage : list ascii;
  tp_amenities : list (list ascii);
  tp_availability : list ascii
}.

Record Element := mkElement {
  el_textContent : res (option (list ascii));
  el_innerHTML : res (list ascii);
  el_extracted : option TempPlan
}.

Record Env := mkEnv {
  launch : res unit;
  newPage : res unit;
  setExtraHTTPHeaders : res unit;
  goto : res unit;
  waitForLoad : res unit;            (* page.waitForTimeout(5000) *)
  title : res (list ascii);
  url : list ascii;
  waitForContent : res unit;         (* page.waitForTimeout(3000) *)
  locate : list ascii -> res (list Element);
  classNames : res (list (list ascii));
  bodyText : res (list ascii);
  close : res unit
}.

(** The attribute selector [[class*="w"]]; 34 is the double quote. *)
Definition class_contains (w : string) : list ascii :=
  chars "[class*=" ++ ascii_of_nat 34 :: chars w ++ [ascii_of_nat 34; "]"%char].

Definition possibleSelectors : list (list ascii) :=
  map chars [".floor-plan"; ".floorplan"; ".apartment"; ".unit"; ".plan"]%string
  ++ map class_contains ["floor"; "plan"; "apartment"; "unit"]%string.

(** The [for ... of possibleSelectors] loop: the elements of the first
    selector that finds any. *)
Fixpoint first_selector (sels : list (list ascii)) : M Env (list Element) :=
  match sels with
  | [] => ret []
  | sel :: rest =>
    elements <- call (fun env => locate env sel) ;;
    match elements with
    | [] => first_selector rest
    | _ :: _ => log (chars "Found elements with selector: " ++ sel) ;;; ret elements
    end
  end.

(** The per-element loop; each iteration has its own [try]/[catch]. *)
Fixpoint process_elements (els : list Element) : M Env (list TempPlan) :=
  match els with
  | [] => ret []
  | el :: rest =>
    here <- try_catch
              (_ <- lift (el_textContent el) ;;
               _ <- lift (el_innerHTML el) ;;
               log (chars "Processing element") ;;;
               match el_extracted el with
               | Some fp => log (chars "Successfully extracted: " ++ tp_name fp) ;;;
                            ret [fp]
               | None => ret []
               end)
              (fun e => log (chars "Error processing element: " ++ e) ;;; ret []) ;;
    others <- process_elements rest ;;
    ret (here ++ others)
  end.

Definition extractColumnsFloorPlans : M Env (list TempPlan) :=
  try_catch
    (log (chars "Starting The Columns at Lake Ridge data extraction...") ;;;
     call waitForContent ;;;
     log (chars "Analyzing page structure...") ;;;
     floorPlanElements <- first_selector possibleSelectors ;;
     match floorPlanElements with
     | [] =>
       log (chars "No floor plan elements found with common selectors.") ;;;
       _ <- call classNames ;;
       log (chars "Available CSS classes on page") ;;;
       _ <- call bodyText ;;
       log (chars "Page content preview") ;;;
       ret []
     | _ :: _ =>
       log (chars "Processing floor plan elements...") ;;;
       process_elements floorPlanElements
     end)
    (fun e => log (chars "Error extracting floor plans: " ++ e) ;;; ret []).

(** The two [map]s of [scrapeColumns] turning a raw plan into a [FloorPlan]. *)
Definition process_plan (plan : TempPlan) : FloorPlan :=
  let rawText := tp_bedBathCount plan in
  let rawPrice := tp_price plan in
  let rawSqft := tp_squareFootage plan in
  let bathrooms := DataProcessor.parseBathrooms rawText in
  let cleanName := replace_all DataProcessor.spaces_re [" "%char]
                     (trim (tp_name plan)) in
  let price := DataProcessor.parsePrice rawPrice in
  let sqft := DataProcessor.parseSquareFootage rawSqft in
  {| fp_name := cleanName;
     price := price;
     bedrooms := DataProcessor.parseBedrooms rawText;
     bathrooms := bathrooms;
     squareFootage := sqft;
     pricePerSqFt :=
       if num_gt sqft (nz 0)
       then num_div (Math_round (num_mul (num_div price sqft) (nz 100))) (nz 100)
       else nz 0;
     amenities := tp_amenities plan;
     availability := tp_availability plan;
     moveInDate := None;
     propertyName := chars "The Columns at Lake Ridge";
     propertyUrl := chars "https://www.thecolumnsatlakeridge.com";
     unitType := Some (DataProcessor.determineUnitType cleanName bathrooms) |}.

(** [finally { if (browser) { await browser.close(); ... } }]: [browser] is
    set exactly when [chromium.launch] succeeded. *)
Definition close_browser : M Env unit :=
  launched <- asks launch ;;
  match launched with
  | Ok _ => call close ;;; log (chars "Columns browser closed")
  | Err _ => ret tt
  end.

Definition scrapeColumns : M Env (list FloorPlan) :=
  log (chars "Scraping The Columns at Lake Ridge...") ;;;
  try_finally
    (try_catch
       (log (chars "Launching Columns browser...") ;;;
        call launch ;;;
        call newPage ;;;
        call setExtraHTTPHeaders ;;;
        log (chars "Navigating to The Columns at Lake Ridge website...") ;;;
        call goto ;;;
        call waitForLoad ;;;
        t <- call title ;;
        log (chars "Columns page loaded successfully! Title: " ++ t) ;;;
        u <- asks url ;;
        log (chars "Current URL: " ++ u) ;;;
        log (chars "Extracting floor plan data...") ;;;
        floorPlans <- extractColumnsFloorPlans ;;
        let processed := map process_plan floorPlans in
        log (chars "Found floor plans") ;;;
        ret processed)
       (fun e => log (chars "Error scraping The Columns: " ++ e) ;;; ret []))
    close_browser.

End Columns.

(* ------------------------------------------------------------------ *)
(** ** [scrapeCamden] (camden.ts)

    The card scraping runs inside one [page.evaluate]; its answer (the raw
    plans, given the community amenities passed in) is the environment's. *)

Module Camden.
Import Effects.

Record RawPlan := mkRawPlan {
  rp_name : list ascii;
  rp_price : list ascii;
  rp_bedBathCount : list ascii;
  rp_squareFootage : list ascii;
  rp_amenities : list (list ascii);
  rp_availability : list ascii
}.

Record Env := mkEnv {
  launch : res unit;
  newPage : res unit;
  setExtraHTTPHeaders : res unit;
  goto : res unit;
  waitForLoad : res unit;             (* page.waitForTimeout(3000) *)
  title : res (list ascii);
  url : list ascii;
  waitForSelector : res unit;
  amenitiesLink : res (option unit);  (* page.$(...) *)
  clickAmenities : res unit;
  waitForAmenities : res unit;
  evaluateAmenities : res (list (list ascii));
  evaluateCards : list (list ascii) -> res (list RawPlan);
  close : res unit
}.

(** The [map] of [extractCamdenFloorPlans] building a [FloorPlan]. *)
Definition enhance (rawPlan : RawPlan) : FloorPlan :=
  let price := DataProcessor.parsePrice (rp_price rawPlan) in
  let bedrooms := DataProcessor.parseBedrooms (rp_bedBathCount rawPlan) in
  let bathrooms := DataProcessor.parseBathrooms (rp_bedBathCount rawPlan) in
  let squareFootage := DataProcessor.parseSquareFootage (rp_squareFootage rawPlan) in
  let cleanName := DataProcessor.cleanFloorPlanName (rp_name rawPlan) in
  let unitType := DataProcessor.determineUnitType (rp_name rawPlan) bathrooms in
  let pricePerSqFt := DataProcessor.calculatePricePerSqFt price squareFootage in
  let availability := DataProcessor.standardizeAvailability (rp_availability rawPlan) in
  {| fp_name := cleanName;
     price := price;
     bedrooms := bedrooms;
     bathrooms := bathrooms;
     squareFootage := squareFootage;
     pricePerSqFt := pricePerSqFt;
     amenities := rp_amenities rawPlan;
     availability := availability;
     propertyName := chars "Camden Dunwoody";
     propertyUrl := chars "https://www.camdenliving.com/apartments/dunwoody-ga/camden-dunwoody/available-apartments";
     unitType := Some unitType;
     moveInDate :=
       match str_match DataProcessor.date_re (rp_availability rawPlan) with
       | Some _ => Some (rp_availability rawPlan)
       | None => None
       end |}.

(** The optional amenities step, with its own [try]/[catch]. *)
Definition community_amenities : M Env (list (list ascii)) :=
  try_catch
    (link <- call amenitiesLink ;;
     match link with
     | Some _ =>
       log (chars "Found amenities navigation, clicking to load amenities section...") ;;;
       call clickAmenities ;;;
       call waitForAmenities ;;;
       a <- call evaluateAmenities ;;
       log (chars "Found community amenities") ;;;
       ret a
     | None => ret []
     end)
    (fun _ => log (chars "Could not navigate to amenities section, will extract from floor plan cards only") ;;;
              ret []).

Definition extractCamdenFloorPlans : M Env (list FloorPlan) :=
  try_catch
    (call waitForSelector ;;;
     communityAmenities <- community_amenities ;;
     rawFloorPlans <- call (fun env => evaluateCards env communityAmenities) ;;
     ret (map enhance rawFloorPlans))
    (fun e => log (chars "Error extracting Camden floor plans: " ++ e) ;;; ret []).

Definition close_browser : M Env unit :=
  launched <- asks launch ;;
  match launched with
  | Ok _ => call close ;;; log (chars "Camden browser closed")
  | Err _ => ret tt
  end.

Definition scrapeCamden : M Env (list FloorPlan) :=
  log (chars "Scraping Camden...") ;;;
  try_finally
    (try_catch
       (log (chars "Launching Camden browser...") ;;;
        call launch ;;;
        call newPage ;;;
        call setExtraHTTPHeaders ;;;
        log (chars "Navigating to Camden Dunwoody website...") ;;;
        call goto ;;;
        call waitForLoad ;;;
        t <- call title ;;
        log (chars "Camden page loaded successfully! Title: " ++ t) ;;;
        u <- asks url ;;
        log (chars "Current URL: " ++ u) ;;;
        log (chars "Extracting floor plan data...") ;;;
        floorPlans <- extractCamdenFloorPlans ;;
        log (chars "Found floor plans") ;;;
        ret floorPlans)
       (fun e => log (chars "Error scraping Camden: " ++ e) ;;; ret []))
    close_browser.

End Camden.

(* ------------------------------------------------------------------ *)
(** ** [StorageService] (storage.ts)

    The file system and [JSON.stringify] are the environment; [path.join]
    is concatenation with "/". *)

Module Storage.
Import Effects.

Record ScrapingResult := mkScrapingResult {
  success : bool;
  message : list ascii;
  timestamp : list ascii;
  source : list ascii;
  floorPlans : list FloorPlan;
  errors : list (list ascii)
}.

Record Env := mkEnv {
  access : list ascii -> res unit;
  mkdir : list ascii -> res unit;
  writeFile : list ascii -> list ascii -> res unit;
  now : Z;
  stringifyReport : DailyReport -> res (list ascii);
  stringifyResult : ScrapingResult -> res (list ascii)
}.

Definition path_join (dir file : list ascii) : list ascii := dir ++ "/"%char :: file.

Record StorageService := mkStorageService { dataDir : list ascii }.

Definition pricesFile (svc : StorageService) : list ascii :=
  path_join (dataDir svc) (chars "prices.json").

Definition ensureDataDirectory (svc : StorageService) : M Env unit :=
  try_catch (call (fun env => access env (dataDir svc)))
            (fun _ => call (fun env => mkdir env (dataDir svc))).

Definition saveDailyReport (svc : StorageService) (report : DailyReport)
  : M Env unit :=
  ensureDataDirectory svc ;;;
  try_catch
    (reportData <- call (fun env => stringifyReport env report) ;;
     call (fun env => writeFile env (pricesFile svc) reportData) ;;;
     log (chars "Daily report saved to " ++ pricesFile svc))
    (fun e => log (chars "Error saving daily report: " ++ e) ;;; throw e).

(** [timestamp], [filename] and [filepath] of [saveScrapingResult], for a
    clock reading [t]. *)
Definition resultFilePath (svc : StorageService) (result : ScrapingResult)
  (t : Z) : list ascii :=
  let timestamp := match split_on "T"%char (toISOString t) with
                   | d :: _ => d
                   | [] => []
                   end in
  let filename := replace_all DataProcessor.spaces_re ["-"%char]
                    (toLowerCase (source result))
                  ++ "-"%char :: timestamp ++ chars ".json" in
  path_join (dataDir svc) filename.

Definition saveScrapingResult (svc : StorageService) (result : ScrapingResult)
  : M Env unit :=
  ensureDataDirectory svc ;;;
  t <- asks now ;;
  let filepath := resultFilePath svc result t in
  try_catch
    (resultData <- call (fun env => stringifyResult env result) ;;
     call (fun env => writeFile env filepath resultData) ;;;
     log (chars "Scraping result saved to " ++ filepath))
    (fun e => log (chars "Error saving scraping result: " ++ e) ;;; throw e).

End Storage.

(* ------------------------------------------------------------------ *)
(** ** Specification-side notions for the aggregator *)

Module ScanSpec.
Import Aggregator.

(** [x] is the first floor plan, in list order, whose key is positive and
    minimal among the positive keys. *)
Definition first_min_positive (key : FloorPlan -> num) (fps : list FloorPlan)
  (x : FloorPlan) : Prop :=
  positive (key x) = true /\
  (forall y, In y fps -> positive (key y) = true -> num_le (key x) (key y) = true) /\
  exists pre post, fps = pre ++ x :: post /\
    forall y, In y pre -> positive (key y) = true -> num_lt (key x) (key y) = true.

(** The linear scan with [0] as "no candidate yet": the first positive
    minimum when some key is positive, the first element otherwise. *)
Definition scan_min (key : FloorPlan -> num) (fps : list FloorPlan)
  (x : FloorPlan) : Prop :=
  In x fps /\
  ((exists y, In y fps /\ positive (key y) = true) -> first_min_positive key fps x) /\
  ((forall y, In y fps -> positive (key y) = false) -> Some x = hd_error fps).

(** [x] is the first floor plan, in list order, with the largest price. *)
Definition scan_max (fps : list FloorPlan) (x : FloorPlan) : Prop :=
  In x fps /\
  (forall y, In y fps -> num_le (price y) (price x) = true) /\
  exists pre post, fps = pre ++ x :: post /\
    forall y, In y pre -> num_lt (price y) (price x) = true.

(** The invariant of the [cheapest] / [bestValue] scan after the prefix
    [l] with current candidate [cur]. *)
Definition min_inv (key : FloorPlan -> num) (l : list FloorPlan)
  (cur : FloorPlan) : Prop :=
  In cur l /\ num_le (nz 0) (key cur) = true /\
  (forall y, In y l -> positive (key y) = true ->
     positive (key cur) = true /\ num_le (key cur) (key y) = true) /\
  (positive (key cur) = true ->
     exists pre post, l = pre ++ cur :: post /\
       forall y, In y pre -> positive (key y) = true -> num_lt (key cur) (key y) = true) /\
  (positive (key cur) = false -> Some cur = hd_error l).

(** The invariant of the [mostExpensive] scan. *)
Definition max_inv (l : list FloorPlan) (cur : FloorPlan) : Prop :=
  In cur l /\ isNaN (price cur) = false /\
  (forall y, In y l -> num_le (price y) (price cur) = true) /\
  exists pre post, l = pre ++ cur :: post /\
    forall y, In y pre -> num_lt (price y) (price cur) = true.

End ScanSpec.

(** A report with its date stamp replaced: everything the clock does not
    decide. *)
Definition without_date (r : res DailyReport) : res DailyReport :=
  match r with
  | Ok d => Ok {| date := []; properties := properties d;
                  allFloorPlans := allFloorPlans d;
                  marketSummary := marketSummary d |}
  | Err e => Err e
  end.

(* ------------------------------------------------------------------ *)
(** ** The language of the regular expressions

    [rm r s s'] holds when [r] matches a prefix of [s] leaving [s']; an
    iteration of a star consumes at least one character, as the matcher's
    does. *)

Inductive rm : regex -> list ascii -> list ascii -> Prop :=
| rm_eps s : rm REps s s
| rm_char (p : ascii -> bool) c t : p c = true -> rm (RChar p) (c :: t) t
| rm_seq r1 r2 s s1 s2 : rm r1 s s1 -> rm r2 s1 s2 -> rm (RSeq r1 r2) s s2
| rm_altl r1 r2 s s' : rm r1 s s' -> rm (RAlt r1 r2) s s'
| rm_altr r1 r2 s s' : rm r2 s s' -> rm (RAlt r1 r2) s s'
| rm_star0 r s : rm (RStar r) s s
| rm_star1 r s s1 s2 : rm r s s1 -> (List.length s1 < List.length s)%nat ->
    rm (RStar r) s1 s2 -> rm (RStar r) s s2
| rm_group r s s' : rm r s s' -> rm (RGroup r) s s'.

(** A regex without capturing group leaves the capture as it is. *)
Fixpoint group_free (r : regex) : bool :=
  match r with
  | RChar _ | REps => true
  | RSeq r1 r2 | RAlt r1 r2 => (group_free r1 && group_free r2)%bool
  | RStar r1 => group_free r1
  | RGroup _ => false
  end.

(** The test every match of [r] applies to its first character, if any. *)
Fixpoint first_pred (r : regex) : option (ascii -> bool) :=
  match r with
  | RChar p => Some p
  | RSeq r1 _ | RGroup r1 => first_pred r1
  | _ => None
  end.

(* ------------------------------------------------------------------ *)
(** ** [StorageService.loadDailyReport] (storage.ts)

    The file read and [JSON.parse] are the environment's, as is the [code]
    property of a thrown error (absent for a [SyntaxError]). *)

Module StorageLoad.
Import Effects.

Record LoadEnv := mkLoadEnv {
  readFile : list ascii -> res (list ascii);
  parse : list ascii -> res DailyReport;
  error_code : js_error -> option (list ascii)
}.

Definition loadDailyReport (svc : Storage.StorageService) : M LoadEnv (option DailyReport) :=
  try_catch
    (data <- call (fun env => readFile env (Storage.pricesFile svc)) ;;
     r <- call (fun env => parse env data) ;;
     ret (Some r))
    (fun e =>
       code <- asks (fun env => error_code env e) ;;
       let is_enoent := match code with
                        | Some c => DataProcessor.list_eqb c (chars "ENOENT")
                        | None => false
                        end in
       if is_enoent then ret None
       else log (chars "Error loading daily report: " ++ e) ;;; throw e).

End StorageLoad.

(* ------------------------------------------------------------------ *)
(** ** Phase 1 of [main] (index.ts)

    Each scraper runs in its own [try]/[catch]; its outcome is what the
    awaited call gives.  The scrapers throw [Error]s, identified here by
    their message, so [error.message] is the error itself.  Each
    [new Date().toISOString()] has its own clock reading.  Console output
    is not part of this model. *)

Module Collect.
Import Storage.

Definition site_result (label source : list ascii) (outcome : res (list FloorPlan))
  (t : Z) : list FloorPlan * ScrapingResult :=
  match outcome with
  | Ok plans =>
    (plans, mkScrapingResult true (label ++ chars " scraping completed successfully")
              (toISOString t) source plans [])
  | Err e =>
    ([], mkScrapingResult false (label ++ chars " scraping failed: " ++ e)
           (toISOString t) source [] [e])
  end.

Definition phase1 (camden columns drift : res (list FloorPlan)) (t1 t2 t3 : Z)
  : list FloorPlan * list ScrapingResult :=
  let '(p1, r1) := site_result (chars "Camden") (chars "Camden Dunwoody") camden t1 in
  let '(p2, r2) := site_result (chars "Columns") (chars "The Columns at Lake Ridge") columns t2 in
  let '(p3, r3) := site_result (chars "Drift") (chars "Drift Dunwoody") drift t3 in
  (p1 ++ p2 ++ p3, [r1; r2; r3]).

End Collect.

(* ------------------------------------------------------------------ *)
(** ** Notions for stating properties of the aggregator and scrapers *)

Module ExtraSpec.

(** The bedroom count of [fp] is the number [k] ([===]). *)
Definition small_bed (k : Z) (fp : FloorPlan) : bool := num_eqb (bedrooms fp) (nz k).

(** The bedroom count is none of 0, 1, 2, 3. *)
Definition other_bed (fp : FloorPlan) : bool :=
  negb (small_bed 0 fp || small_bed 1 fp || small_bed 2 fp || small_bed 3 fp).

Definition cnt (p : FloorPlan -> bool) (fp : FloorPlan) : nat :=
  if p fp then 1%nat else 0%nat.

(** [fp.propertyName === n]. *)
Definition is_named (n : list ascii) (fp : FloorPlan) : bool :=
  DataProcessor.list_eqb (propertyName fp) n.

(** What one element of The Columns' page contributes: its extracted plan,
    when reading its text and its HTML did not throw. *)
Definition element_plans (el : Columns.Element) : list Columns.TempPlan :=
  match Columns.el_textContent el, Columns.el_innerHTML el with
  | Ok _, Ok _ => match Columns.el_extracted el with Some fp => [fp] | None => [] end
  | _, _ => []
  end.

(** The selector query answering [r] is the first one, in [sels], whose
    answer is not the empty list of elements. *)
Definition found_at (env : Columns.Env) (sels : list (list ascii))
  (r : res (list Columns.Element)) : Prop :=
  exists pre sel post, sels = pre ++ sel :: post /\
    Forall (fun s => Columns.locate env s = Ok []) pre /\ Columns.locate env sel = r.

(** The community amenities Camden's page yields: those read after
    following the amenities link, when every step succeeds. *)
Definition amenities_found (env : Camden.Env) : list (list ascii) :=
  match Camden.amenitiesLink env with
  | Ok (Some _) =>
    match Camden.clickAmenities env, Camden.waitForAmenities env,
          Camden.evaluateAmenities env with
    | Ok _, Ok _, Ok a => a
    | _, _, _ => []
    end
  | _ => []
  end.

Definition ok_or_nil {A} (r : res (list A)) : list A :=
  match r with Ok l => l | Err _ => [] end.

End ExtraSpec.

(* ------------------------------------------------------------------ *)
(** ** Sample inputs *)

(** A priced floor plan and one without price or price per square foot. *)
Definition sample_plan : FloorPlan :=
  mkFloorPlan (chars "A1") (nz 1200) (nz 1) (nz 1) (nz 700) (fin (171 # 100)) []
    (chars "Available Now") None (chars "Camden Dunwoody")
    (chars "https://www.camdenliving.com") (Some DataProcessor.apartment).

Definition unpriced_plan : FloorPlan :=
  mkFloorPlan (chars "B2") (nz 0) (nz 2) (nz 2) (nz 0) (nz 0) []
    (chars "Contact for Availability") None (chars "Camden Dunwoody")
    (chars "https://www.camdenliving.com") (Some DataProcessor.apartment).

(** A Columns page whose first matching element fails on [textContent] and
    whose second one yields a plan. *)
Definition good_plan : Columns.TempPlan :=
  Columns.mkTempPlan (chars "A1") (chars "$1,200") (chars "1 Bed 1 Bath")
    (chars "700 SqFt") [] (chars "Available").

Definition flaky_page_env : Columns.Env :=
  {| Columns.launch := Ok tt; Columns.newPage := Ok tt;
     Columns.setExtraHTTPHeaders := Ok tt; Columns.goto := Ok tt;
     Columns.waitForLoad := Ok tt; Columns.title := Ok (chars "The Columns");
     Columns.url := chars "https://www.thecolumnsatlakeridge.com";
     Columns.waitForContent := Ok tt;
     Columns.locate := fun sel =>
       if DataProcessor.list_eqb sel (chars ".floor-plan")
       then Ok [Columns.mkElement (Err (chars "Error: Element is not attached"))
                  (Ok []) None;
                Columns.mkElement (Ok (Some (chars "A1"))) (Ok []) (Some good_plan)]
       else Ok [];
     Columns.classNames := Ok []; Columns.bodyText := Ok [];
     Columns.close := Ok tt |}.

(** A Columns run whose [newPage] and then [browser.close] fail. *)
Definition close_fail_env : Columns.Env :=
  {| Columns.launch := Ok tt; Columns.newPage := Err (chars "Error: newPage failed");
     Columns.setExtraHTTPHeaders := Ok tt; Columns.goto := Ok tt;
     Columns.waitForLoad := Ok tt; Columns.title := Ok [];
     Columns.url := []; Columns.waitForContent := Ok tt;
     Columns.locate := fun _ => Ok []; Columns.classNames := Ok [];
     Columns.bodyText := Ok [];
     Columns.close := Err (chars "Error: Target closed") |}.

(** A Columns run whose navigation times out. *)
Definition nav_fail_env : Columns.Env :=
  {| Columns.launch := Ok tt; Columns.newPage := Ok tt;
     Columns.setExtraHTTPHeaders := Ok tt;
     Columns.goto := Err (chars "TimeoutError: page.goto: Timeout 30000ms exceeded");
     Columns.waitForLoad := Ok tt; Columns.title := Ok [];
     Columns.url := []; Columns.waitForContent := Ok tt;
     Columns.locate := fun _ => Ok []; Columns.classNames := Ok [];
     Columns.bodyText := Ok []; Columns.close := Ok tt |}.

(** A Columns page where the first selector finds no element and the query
    of the second one throws. *)
Definition selector_fail_env : Columns.Env :=
  {| Columns.launch := Ok tt; Columns.newPage := Ok tt;
     Columns.setExtraHTTPHeaders := Ok tt; Columns.goto := Ok tt;
     Columns.waitForLoad := Ok tt; Columns.title := Ok (chars "The Columns");
     Columns.url := chars "https://www.thecolumnsatlakeridge.com";
     Columns.waitForContent := Ok tt;
     Columns.locate := fun sel =>
       if DataProcessor.list_eqb sel (chars ".floor-plan") then Ok []
       else Err (chars "Error: locator.all: Target page, context or browser has been closed");
     Columns.classNames := Ok []; Columns.bodyText := Ok [];
     Columns.close := Ok tt |}.

(** A file system that refuses every write. *)
Definition write_fail_env : Storage.Env :=
  {| Storage.access := fun _ => Ok tt; Storage.mkdir := fun _ => Ok tt;
     Storage.writeFile := fun _ _ => Err (chars "Error: EACCES: permission denied");
     Storage.now := 0;
     Storage.stringifyReport := fun _ => Ok (chars "{}");
     Storage.stringifyResult := fun _ => Ok (chars "{}") |}.

Definition sample_report : DailyReport :=
  mkDailyReport (chars "1970-01-01") [] [sample_plan]
    (mkMarketSummary 1 (nz 1200) (fin (171 # 100)) sample_plan sample_plan sample_plan).

Definition sample_result : Storage.ScrapingResult :=
  Storage.mkScrapingResult true (chars "Camden scraping completed successfully")
    (chars "1970-01-01T00:00:00.000Z") (chars "Camden Dunwoody") [sample_plan] [].

(** The raw text of the end-to-end scenario. *)
Definition scenario_text : list ascii := chars "A2 1 Bed / 1 Bath 850 SqFt $1,450".

(** A Camden page whose amenities link cannot be found (the query throws)
    and whose cards give one raw plan. *)
Definition sample_raw : Camden.RawPlan :=
  Camden.mkRawPlan (chars "A1 - 1 Bed") (chars "$1,200") (chars "1 Bed 1 Bath")
    (chars "700 SqFt") [] (chars "Available Now").

Definition camden_sample_env : Camden.Env :=
  {| Camden.launch := Ok tt; Camden.newPage := Ok tt;
     Camden.setExtraHTTPHeaders := Ok tt; Camden.goto := Ok tt;
     Camden.waitForLoad := Ok tt; Camden.title := Ok (chars "Camden Dunwoody");
     Camden.url := chars "https://www.camdenliving.com";
     Camden.waitForSelector := Ok tt;
     Camden.amenitiesLink := Err (chars "TimeoutError: page.$: Timeout exceeded");
     Camden.clickAmenities := Ok tt; Camden.waitForAmenities := Ok tt;
     Camden.evaluateAmenities := Ok [];
     Camden.evaluateCards := fun _ => Ok [sample_raw];
     Camden.close := Ok tt |}.

(** A file system where the data directory is missing and cannot be
    created. *)
Definition nodir_env : Storage.Env :=
  {| Storage.access := fun _ => Err (chars "Error: ENOENT: no such file or directory");
     Storage.mkdir := fun _ => Err (chars "Error: EACCES: permission denied");
     Storage.writeFile := fun _ _ => Ok tt;
     Storage.now := 0;
     Storage.stringifyReport := fun _ => Ok (chars "{}");
     Storage.stringifyResult := fun _ => Ok (chars "{}") |}.

(* ================================================================== *)
(** * Properties *)

(** ** Field parsers *)

Lemma includes_single_absent (c : ascii) (l : list ascii) :
  (forall x, In x l -> x <> c) -> includes l [c] = false.
Proof.
  induction l as [|a t IH]; intros H; simpl; [reflexivity|].
  rewrite IH by (intros x Hx; apply H; right; exact Hx).
  destruct (Ascii.eqb c a) eqn:E; [|reflexivity].
  apply Ascii.eqb_eq in E. exfalso. apply (H a); [left; reflexivity | congruence].
Qed.

(** The range branch of [parsePrice] is never taken: the cleaning step
    has already removed every hyphen. *)
Lemma parsePrice_range_branch_dead (s : list ascii) :
  includes (filter DataProcessor.price_char s) ["-"%char] = false.
Proof.
  apply includes_single_absent. intros x Hx Heq. subst x.
  apply filter_In in Hx. destruct Hx as [_ Hx]. vm_compute in Hx. discriminate.
Qed.

(** C1 (code bug): on "$1,583 - $1,650" [parsePrice] does not return the
    minimum 1583 of the range, as the range handling written for exactly
    this input intends; it strips the hyphen and the spaces and returns
    the concatenated digits 15831650.  The specification's reading
    [parsePrice_spec] returns 1583. *)
Theorem parsePrice_range_concatenates :
  DataProcessor.parsePrice (chars "$1,583 - $1,650") = nz 15831650 /\
  SpecModel.parsePrice_spec (chars "$1,583 - $1,650") = nz 1583.
Proof. split; vm_compute; reflexivity. Qed.

(** C3 (counterexample): on the single raw text the square-footage parser
    does not give 850, nor the price parser 1450. *)
Lemma scenario_text_not_850_1450 :
  ~ (DataProcessor.parseSquareFootage scenario_text = nz 850 /\
     DataProcessor.parsePrice scenario_text = nz 1450).
Proof. intros [H _]. vm_compute in H. discriminate. Qed.

(** C3 (amended): on "A2 1 Bed / 1 Bath 850 SqFt $1,450" the parsers give
    bedrooms 1, bathrooms 1 and unit type "apartment", but square footage 2
    (the first integer, from "A2") and price 2118501450 (every digit, once
    the other characters are stripped); 850 and 1450 come from the separated
    fields "850 SqFt" and "$1,450", and calculatePricePerSqFt(1450, 850)
    is 1.71. *)
Theorem scenario_text_parsers :
  DataProcessor.parseBedrooms scenario_text = nz 1 /\
  DataProcessor.parseBathrooms scenario_text = nz 1 /\
  DataProcessor.parseSquareFootage scenario_text = nz 2 /\
  DataProcessor.parsePrice scenario_text = nz 2118501450 /\
  DataProcessor.determineUnitType scenario_text (nz 1) = DataProcessor.apartment /\
  DataProcessor.parseSquareFootage (chars "850 SqFt") = nz 850 /\
  DataProcessor.parsePrice (chars "$1,450") = nz 1450 /\
  DataProcessor.calculatePricePerSqFt (nz 1450) (nz 850) = fin (171 # 100).
Proof. repeat split; vm_compute; reflexivity. Qed.

(** C6: [determineUnitType] answers "studio" whenever the lower-cased name
    contains "studio", whatever the bathroom count; otherwise "townhome"
    when the name contains "townhome" or "townhouse" or bathrooms > 2.5;
    otherwise "apartment". *)
Theorem determineUnitType_priority (name : list ascii) (bathrooms : num) :
  DataProcessor.determineUnitType name bathrooms =
  if includes (toLowerCase name) (chars "studio") then DataProcessor.studio
  else if (includes (toLowerCase name) (chars "townhome")
           || includes (toLowerCase name) (chars "townhouse")
           || num_gt bathrooms (fin (5 # 2)))%bool
  then DataProcessor.townhome
  else DataProcessor.apartment.
Proof.
  unfold DataProcessor.determineUnitType.
  destruct (includes (toLowerCase name) (chars "studio")); [reflexivity|].
  destruct (includes (toLowerCase name) (chars "townhome")
            || includes (toLowerCase name) (chars "townhouse"))%bool;
    reflexivity.
Qed.

(** ** Order on JavaScript numbers other than NaN *)

Section NumOrder.
Local Open Scope Q_scope.

Lemma Qlt_bool_iff (x y : Q) : Qlt_bool x y = true <-> x < y.
Proof.
  unfold Qlt_bool. rewrite negb_true_iff. split; intro H.
  - apply Qnot_le_lt. intro H'. apply Qle_bool_iff in H'. congruence.
  - destruct (Qle_bool y x) eqn:E; [|reflexivity].
    apply Qle_bool_iff in E. exfalso. apply (Qlt_not_le x y); assumption.
Qed.

Lemma num_le_Fin (x y : Q) : num_le (Fin x) (Fin y) = true <-> x <= y.
Proof.
  unfold num_le; simpl. rewrite orb_true_iff, Qlt_bool_iff, Qeq_bool_iff.
  split; [intros [H|H]; lra | intro H].
  destruct (Qlt_le_dec x y) as [H'|H']; [left; exact H' | right; lra].
Qed.

Lemma num_lt_Fin (x y : Q) : num_lt (Fin x) (Fin y) = true <-> x < y.
Proof. apply Qlt_bool_iff. Qed.

Ltac qbool :=
  repeat match goal with
  | H : (_ || _)%bool = true |- _ => apply orb_true_iff in H; destruct H as [H|H]
  | H : Qlt_bool _ _ = true |- _ => apply Qlt_bool_iff in H
  | H : Qeq_bool _ _ = true |- _ => apply Qeq_bool_iff in H
  | H : Qlt_bool _ _ = false |- _ =>
      unfold Qlt_bool in H; apply negb_false_iff, Qle_bool_iff in H
  | |- Qlt_bool _ _ = true => apply Qlt_bool_iff
  end.

Ltac close_qgoal :=
  first [ reflexivity | discriminate | lra
        | apply orb_true_iff; left; apply Qlt_bool_iff; lra
        | apply orb_true_iff; right; apply Qeq_bool_iff; lra ].

Ltac num_cases :=
  repeat match goal with
  | a : num |- _ => destruct a
  end; unfold num_le, num_gt, Aggregator.positive, nz, fin in *; simpl in *;
  qbool; try close_qgoal.

Lemma num_lt_le (a b : num) : num_lt a b = true -> num_le a b = true.
Proof. intro H. unfold num_le. rewrite H. reflexivity. Qed.

Lemma num_le_refl (a : num) : isNaN a = false -> num_le a a = true.
Proof. intro H. num_cases. Qed.

Lemma num_lt_le_trans (a b c : num) :
  num_lt a b = true -> num_le b c = true -> num_lt a c = true.
Proof. intros H1 H2. num_cases. Qed.

Lemma num_le_lt_trans (a b c : num) :
  num_le a b = true -> num_lt b c = true -> num_lt a c = true.
Proof. intros H1 H2. num_cases. Qed.

Lemma num_le_trans (a b c : num) :
  num_le a b = true -> num_le b c = true -> num_le a c = true.
Proof. intros H1 H2. num_cases. Qed.

Lemma num_lt_false_le (a b : num) :
  isNaN a = false -> isNaN b = false -> num_lt a b = false -> num_le b a = true.
Proof.
  intros Ha Hb H.
  destruct a, b; simpl in *; try discriminate; try reflexivity.
  apply num_le_Fin. unfold Qlt_bool in H.
  apply negb_false_iff, Qle_bool_iff in H. exact H.
Qed.

Lemma num_le_PInf (x : num) : num_le PInf x = true -> x = PInf.
Proof. intro H. num_cases. Qed.

Lemma num_le_NInf (x : num) : num_le x NInf = true -> x = NInf.
Proof. intro H. num_cases. Qed.

Lemma positive_not_zero (a : num) :
  Aggregator.positive a = true -> num_eqb a (nz 0) = false.
Proof.
  unfold Aggregator.positive, num_gt. change (nz 0) with (Fin 0). intro H.
  destruct a as [q| | |]; simpl in *; try reflexivity; try discriminate.
  apply Qlt_bool_iff in H.
  destruct (Qeq_bool q 0) eqn:E; [|reflexivity].
  apply Qeq_bool_iff in E. lra.
Qed.

Lemma nonneg_nonzero_positive (a : num) :
  num_le (nz 0) a = true -> num_eqb a (nz 0) = false -> Aggregator.positive a = true.
Proof.
  unfold Aggregator.positive, num_gt. change (nz 0) with (Fin 0). intros H1 H2.
  destruct a as [q| | |]; simpl in *; try reflexivity; try discriminate.
  apply num_le_Fin in H1. apply Qlt_bool_iff.
  destruct (Qlt_le_dec 0 q) as [H|H]; [exact H|].
  exfalso. assert (q == 0) as Hq by lra. apply Qeq_bool_iff in Hq. congruence.
Qed.

Lemma positive_not_NaN (a : num) : Aggregator.positive a = true -> isNaN a = false.
Proof. intro H. destruct a; try reflexivity; discriminate. Qed.

Lemma nonneg_not_NaN (a : num) : num_le (nz 0) a = true -> isNaN a = false.
Proof. intro H. destruct a; try reflexivity; discriminate. Qed.

End NumOrder.

(** ** [Math.min] and [Math.max] over numbers other than NaN *)

Section MinMax.

Lemma min_fold (xs P : list num) (acc : num) :
  isNaN acc = false -> Forall (fun x => isNaN x = false) xs ->
  (forall x, In x P -> num_le acc x = true) -> (In acc P \/ acc = PInf) ->
  isNaN (fold_left min_step xs acc) = false /\
  (forall x, In x (P ++ xs) -> num_le (fold_left min_step xs acc) x = true) /\
  (In (fold_left min_step xs acc) (P ++ xs) \/ fold_left min_step xs acc = PInf).
Proof.
  revert P acc. induction xs as [|x xs IH]; intros P acc Hacc Hxs Hle Hin.
  - rewrite app_nil_r. simpl. auto.
  - inversion Hxs as [|? ? Hx Hxs']; subst. simpl.
    replace (P ++ x :: xs) with ((P ++ [x]) ++ xs) by (rewrite <- app_assoc; reflexivity).
    assert (Hs : min_step acc x = if num_lt x acc then x else acc)
      by (unfold min_step; rewrite Hacc, Hx; reflexivity).
    rewrite Hs.
    destruct (num_lt x acc) eqn:E; apply IH; auto.
    + intros y Hy. apply in_app_or in Hy. destruct Hy as [Hy|[Hy|[]]].
      * apply num_lt_le. eapply num_lt_le_trans; [exact E | apply Hle; exact Hy].
      * subst. apply num_le_refl. exact Hx.
    + left. apply in_or_app. right. left. reflexivity.
    + intros y Hy. apply in_app_or in Hy. destruct Hy as [Hy|[Hy|[]]].
      * apply Hle. exact Hy.
      * subst. apply num_lt_false_le; assumption.
    + destruct Hin as [Hin|Hin]; [left; apply in_or_app; left; exact Hin | right; exact Hin].
Qed.

Lemma max_fold (xs P : list num) (acc : num) :
  isNaN acc = false -> Forall (fun x => isNaN x = false) xs ->
  (forall x, In x P -> num_le x acc = true) -> (In acc P \/ acc = NInf) ->
  isNaN (fold_left max_step xs acc) = false /\
  (forall x, In x (P ++ xs) -> num_le x (fold_left max_step xs acc) = true) /\
  (In (fold_left max_step xs acc) (P ++ xs) \/ fold_left max_step xs acc = NInf).
Proof.
  revert P acc. induction xs as [|x xs IH]; intros P acc Hacc Hxs Hle Hin.
  - rewrite app_nil_r. simpl. auto.
  - inversion Hxs as [|? ? Hx Hxs']; subst. simpl.
    replace (P ++ x :: xs) with ((P ++ [x]) ++ xs) by (rewrite <- app_assoc; reflexivity).
    assert (Hs : max_step acc x = if num_gt x acc then x else acc)
      by (unfold max_step; rewrite Hacc, Hx; reflexivity).
    rewrite Hs.
    destruct (num_gt x acc) eqn:E; unfold num_gt in E; apply IH; auto.
    + intros y Hy. apply in_app_or in Hy. destruct Hy as [Hy|[Hy|[]]].
      * apply num_lt_le. eapply num_le_lt_trans; [apply Hle; exact Hy | exact E].
      * subst. apply num_le_refl. exact Hx.
    + left. apply in_or_app. right. left. reflexivity.
    + intros y Hy. apply in_app_or in Hy. destruct Hy as [Hy|[Hy|[]]].
      * apply Hle. exact Hy.
      * subst. apply num_lt_false_le; assumption.
    + destruct Hin as [Hin|Hin]; [left; apply in_or_app; left; exact Hin | right; exact Hin].
Qed.

Lemma Math_min_spec (xs : list num) :
  xs <> [] -> Forall (fun x => isNaN x = false) xs ->
  In (Math_min xs) xs /\ forall x, In x xs -> num_le (Math_min xs) x = true.
Proof.
  intros Hne Hxs. unfold Math_min.
  destruct (min_fold xs [] PInf eq_refl Hxs) as [_ [Hle Hin]];
    [intros x []| right; reflexivity|].
  simpl in Hle, Hin. split; [|exact Hle].
  destruct Hin as [Hin|Hin]; [exact Hin|].
  destruct xs as [|x xs']; [congruence|].
  assert (x = PInf) as Hx.
  { apply num_le_PInf. rewrite <- Hin. apply Hle. left. reflexivity. }
  rewrite Hin, <- Hx. left. reflexivity.
Qed.

Lemma Math_max_spec (xs : list num) :
  xs <> [] -> Forall (fun x => isNaN x = false) xs ->
  In (Math_max xs) xs /\ forall x, In x xs -> num_le x (Math_max xs) = true.
Proof.
  intros Hne Hxs. unfold Math_max.
  destruct (max_fold xs [] NInf eq_refl Hxs) as [_ [Hle Hin]];
    [intros x []| right; reflexivity|].
  simpl in Hle, Hin. split; [|exact Hle].
  destruct Hin as [Hin|Hin]; [exact Hin|].
  destruct xs as [|x xs']; [congruence|].
  assert (x = NInf) as Hx.
  { apply num_le_NInf. rewrite <- Hin. apply Hle. left. reflexivity. }
  rewrite Hin, <- Hx. left. reflexivity.
Qed.

End MinMax.

(** ** [createPropertySummary] *)

Section PropertySummaryProps.
Import Aggregator.

Lemma filter_positive_nil (f : FloorPlan -> num) (fps : list FloorPlan) :
  Forall (fun fp => positive (f fp) = false) fps ->
  filter positive (map f fps) = [].
Proof.
  induction 1 as [|fp fps' Hfp _ IH]; [reflexivity|].
  simpl. rewrite Hfp. exact IH.
Qed.

Lemma filter_positive_not_NaN (xs : list num) :
  Forall (fun x => isNaN x = false) (filter positive xs).
Proof.
  apply Forall_forall. intros x Hx. apply filter_In in Hx.
  apply positive_not_NaN. apply Hx.
Qed.

Lemma in_filter_positive_price (fps : list FloorPlan) (x : num) :
  In x (filter positive (map price fps)) ->
  exists fp, In fp fps /\ positive (price fp) = true /\ x = price fp.
Proof.
  intro H. apply filter_In in H. destruct H as [H Hp].
  apply in_map_iff in H. destruct H as [fp [Heq Hin]]. subst x.
  exists fp. auto.
Qed.

(** C5: when some floor plan has a positive price, the bounds of
    [priceRange] are prices of floor plans with a positive price, the lower
    bound is at most the upper one, and [totalFloorPlans] still counts every
    floor plan. *)
Theorem createPropertySummary_priceRange (propertyName : list ascii)
  (fps : list FloorPlan)
  (Hpos : exists fp, In fp fps /\ positive (price fp) = true) :
  let s := createPropertySummary propertyName fps in
  (exists fp, In fp fps /\ positive (price fp) = true /\
              pr_min (priceRange s) = price fp) /\
  (exists fp, In fp fps /\ positive (price fp) = true /\
              pr_max (priceRange s) = price fp) /\
  num_le (pr_min (priceRange s)) (pr_max (priceRange s)) = true /\
  totalFloorPlans s = List.length fps.
Proof.
  simpl. set (xs := filter positive (map price fps)).
  assert (Hne : xs <> []).
  { destruct Hpos as [fp [Hin Hp]]. intro Hnil.
    assert (In (price fp) xs) as H.
    { apply filter_In. split; [apply in_map; exact Hin | exact Hp]. }
    rewrite Hnil in H. destruct H. }
  pose proof (filter_positive_not_NaN (map price fps)) as Hnn.
  destruct (Math_min_spec xs Hne Hnn) as [Hmin_in Hmin_le].
  destruct (Math_max_spec xs Hne Hnn) as [Hmax_in Hmax_le].
  repeat split.
  - destruct (in_filter_positive_price fps _ Hmin_in) as [fp [? [? ?]]].
    exists fp. auto.
  - destruct (in_filter_positive_price fps _ Hmax_in) as [fp [? [? ?]]].
    exists fp. auto.
  - apply Hmin_le. exact Hmax_in.
Qed.

Lemma createPropertySummary_priceRange_witness :
  (exists fp, In fp [sample_plan; unpriced_plan] /\ positive (price fp) = true) /\
  num_le (pr_min (priceRange (createPropertySummary (chars "Camden Dunwoody")
                               [sample_plan; unpriced_plan])))
         (pr_max (priceRange (createPropertySummary (chars "Camden Dunwoody")
                               [sample_plan; unpriced_plan]))) = true.
Proof.
  assert (H : exists fp, In fp [sample_plan; unpriced_plan] /\ positive (price fp) = true)
    by (exists sample_plan; split; [left; reflexivity | reflexivity]).
  split; [exact H|].
  exact (proj1 (proj2 (proj2 (createPropertySummary_priceRange
                                (chars "Camden Dunwoody") _ H)))).
Defined.

(** C10: with no positive price the price range is (+Infinity, -Infinity),
    so min > max; with no positive price per square foot the average is
    NaN. *)
Theorem createPropertySummary_no_candidates (propertyName : list ascii)
  (fps : list FloorPlan) :
  (fps <> [] -> Forall (fun fp => positive (price fp) = false) fps ->
   let s := createPropertySummary propertyName fps in
   pr_min (priceRange s) = PInf /\ pr_max (priceRange s) = NInf /\
   num_gt (pr_min (priceRange s)) (pr_max (priceRange s)) = true) /\
  (Forall (fun fp => positive (pricePerSqFt fp) = false) fps ->
   ps_avgPricePerSqFt (createPropertySummary propertyName fps) = NaN).
Proof.
  split.
  - intros _ H. simpl. rewrite (filter_positive_nil price fps H).
    repeat split.
  - intros H. simpl. rewrite (filter_positive_nil pricePerSqFt fps H).
    vm_compute. reflexivity.
Qed.

Lemma createPropertySummary_no_candidates_witness :
  [unpriced_plan] <> [] /\
  Forall (fun fp => positive (price fp) = false) [unpriced_plan] /\
  Forall (fun fp => positive (pricePerSqFt fp) = false) [unpriced_plan] /\
  pr_min (priceRange (createPropertySummary (chars "Camden Dunwoody") [unpriced_plan])) = PInf /\
  ps_avgPricePerSqFt (createPropertySummary (chars "Camden Dunwoody") [unpriced_plan]) = NaN.
Proof.
  assert (H1 : [unpriced_plan] <> []) by discriminate.
  assert (H2 : Forall (fun fp => positive (price fp) = false) [unpriced_plan])
    by (repeat constructor).
  assert (H3 : Forall (fun fp => positive (pricePerSqFt fp) = false) [unpriced_plan])
    by (repeat constructor).
  destruct (createPropertySummary_no_candidates (chars "Camden Dunwoody") [unpriced_plan])
    as [Ha Hb].
  split; [exact H1|]. split; [exact H2|]. split; [exact H3|].
  split; [exact (proj1 (Ha H1 H2)) | exact (Hb H3)].
Defined.

End PropertySummaryProps.

(** ** [createDailyReport]: the linear scans *)

Section Scans.
Import Aggregator ScanSpec.

Lemma hd_error_app (l m : list FloorPlan) (x : FloorPlan) :
  Some x = hd_error l -> Some x = hd_error (l ++ m).
Proof. destruct l; simpl; [discriminate | auto]. Qed.

Lemma in_app_last (l : list FloorPlan) (y z : FloorPlan) :
  In z (l ++ [y]) -> In z l \/ z = y.
Proof.
  intro H. apply in_app_or in H. destruct H as [H|[H|[]]]; [left | right]; auto.
Qed.

Lemma pick_min_step (key : FloorPlan -> num) (l : list FloorPlan)
  (cur y : FloorPlan) :
  min_inv key l cur -> num_le (nz 0) (key y) = true ->
  min_inv key (l ++ [y]) (pick_min key cur y).
Proof.
  intros [Hin [Hnn [Hle [Hfirst Hhd]]]] Hy.
  assert (Hyn : isNaN (key y) = false) by (apply nonneg_not_NaN; exact Hy).
  assert (Hcn : isNaN (key cur) = false) by (apply nonneg_not_NaN; exact Hnn).
  unfold pick_min.
  destruct (positive (key y)) eqn:Py; simpl.
  - (* y is a candidate: it replaces cur exactly when it is strictly better *)
    assert (Hbetter : forall z, In z l -> positive (key z) = true ->
              num_eqb (key cur) (nz 0) = true \/ num_lt (key y) (key cur) = true ->
              num_lt (key y) (key z) = true).
    { intros z Hz Pz [Ez|Lt]; destruct (Hle z Hz Pz) as [Pc Lc].
      - rewrite positive_not_zero in Ez by exact Pc. discriminate.
      - eapply num_lt_le_trans; eassumption. }
    destruct (num_eqb (key cur) (nz 0) || num_lt (key y) (key cur))%bool eqn:C.
    + apply orb_true_iff in C.
      unfold min_inv; split; [|split; [|split; [|split]]].
      * apply in_or_app. right. left. reflexivity.
      * exact Hy.
      * intros z Hz Pz. split; [exact Py|].
        apply in_app_last in Hz. destruct Hz as [Hz|Hz].
        -- apply num_lt_le. apply Hbetter; assumption.
        -- subst. apply num_le_refl. exact Hyn.
      * intros _. exists l, []. split; [reflexivity|].
        intros z Hz Pz. apply Hbetter; assumption.
      * intros H. congruence.
    + apply orb_false_iff in C. destruct C as [Ez Lt].
      assert (Pc : positive (key cur) = true)
        by (apply nonneg_nonzero_positive; assumption).
      unfold min_inv; split; [|split; [|split; [|split]]].
      * apply in_or_app. left. exact Hin.
      * exact Hnn.
      * intros z Hz Pz. apply in_app_last in Hz. destruct Hz as [Hz|Hz];
          [apply (Hle z Hz Pz) | subst; split; [exact Pc|]].
        apply num_lt_false_le; assumption.
      * intros _. destruct (Hfirst Pc) as [pre [post [Hl Hpre]]].
        exists pre, (post ++ [y]). split; [|exact Hpre].
        rewrite Hl, <- app_assoc. reflexivity.
      * intros H. congruence.
  - unfold min_inv; split; [|split; [|split; [|split]]].
    + apply in_or_app. left. exact Hin.
    + exact Hnn.
    + intros z Hz Pz. apply in_app_last in Hz. destruct Hz as [Hz|Hz];
        [apply (Hle z Hz Pz) | subst; congruence].
    + intros Pc. destruct (Hfirst Pc) as [pre [post [Hl Hpre]]].
      exists pre, (post ++ [y]). split; [|exact Hpre].
      rewrite Hl, <- app_assoc. reflexivity.
    + intros Pc. apply hd_error_app. apply Hhd. exact Pc.
Qed.

Lemma pick_min_fold (key : FloorPlan -> num) (xs l : list FloorPlan)
  (cur : FloorPlan) :
  Forall (fun y => num_le (nz 0) (key y) = true) xs ->
  min_inv key l cur -> min_inv key (l ++ xs) (fold_left (pick_min key) xs cur).
Proof.
  revert l cur. induction xs as [|y xs IH]; intros l cur Hxs Hinv.
  - rewrite app_nil_r. exact Hinv.
  - inversion Hxs; subst. simpl.
    replace (l ++ y :: xs) with ((l ++ [y]) ++ xs) by (rewrite <- app_assoc; reflexivity).
    apply IH; [assumption|]. apply pick_min_step; assumption.
Qed.

Lemma min_inv_scan (key : FloorPlan -> num) (fps : list FloorPlan)
  (cur : FloorPlan) :
  min_inv key fps cur -> scan_min key fps cur.
Proof.
  intros [Hin [Hnn [Hle [Hfirst Hhd]]]]. split; [exact Hin|]. split.
  - intros [y [Hy Py]]. destruct (Hle y Hy Py) as [Pc _].
    split; [exact Pc|]. split.
    + intros z Hz Pz. apply (Hle z Hz Pz).
    + apply Hfirst. exact Pc.
  - intros Hnone. apply Hhd. apply Hnone. exact Hin.
Qed.

Lemma cheapest_scan (key : FloorPlan -> num) (h : FloorPlan)
  (t : list FloorPlan) :
  Forall (fun y => num_le (nz 0) (key y) = true) (h :: t) ->
  scan_min key (h :: t) (fold_left (pick_min key) t h).
Proof.
  intros Hall. inversion Hall as [|? ? Hh Ht]; subst.
  apply min_inv_scan. apply (pick_min_fold key t [h] h Ht).
  unfold min_inv; split; [|split; [|split; [|split]]].
  - left. reflexivity.
  - exact Hh.
  - intros z [Hz|[]] Pz. subst. split; [exact Pz|].
    apply num_le_refl, nonneg_not_NaN. exact Hh.
  - intros _. exists [], []. split; [reflexivity | intros z []].
  - intros _. reflexivity.
Qed.

Lemma pick_max_fold (xs l : list FloorPlan) (cur : FloorPlan) :
  Forall (fun y => isNaN (price y) = false) xs ->
  max_inv l cur -> max_inv (l ++ xs) (fold_left pick_max xs cur).
Proof.
  revert l cur. induction xs as [|y xs IH]; intros l cur Hxs Hinv.
  - rewrite app_nil_r. exact Hinv.
  - inversion Hxs as [|? ? Hy Hxs']; subst. simpl.
    replace (l ++ y :: xs) with ((l ++ [y]) ++ xs) by (rewrite <- app_assoc; reflexivity).
    apply IH; [assumption|].
    destruct Hinv as [Hin [Hcn [Hle [pre [post [Hl Hpre]]]]]].
    unfold pick_max, num_gt. destruct (num_lt (price cur) (price y)) eqn:Gt.
    + repeat split.
      * apply in_or_app. right. left. reflexivity.
      * exact Hy.
      * intros z Hz. apply in_app_last in Hz. destruct Hz as [Hz|Hz].
        -- apply num_lt_le. eapply num_le_lt_trans; [apply Hle; exact Hz | exact Gt].
        -- subst. apply num_le_refl. exact Hy.
      * exists l, []. split; [reflexivity|].
        intros z Hz. eapply num_le_lt_trans; [apply Hle; exact Hz | exact Gt].
    + repeat split.
      * apply in_or_app. left. exact Hin.
      * exact Hcn.
      * intros z Hz. apply in_app_last in Hz. destruct Hz as [Hz|Hz];
          [apply Hle; exact Hz | subst; apply num_lt_false_le; assumption].
      * exists pre, (post ++ [y]). split; [|exact Hpre].
        rewrite Hl, <- app_assoc. reflexivity.
Qed.

Lemma most_expensive_scan (h : FloorPlan) (t : list FloorPlan) :
  Forall (fun y => isNaN (price y) = false) (h :: t) ->
  scan_max (h :: t) (fold_left pick_max t h).
Proof.
  intros Hall. inversion Hall as [|? ? Hh Ht]; subst.
  destruct (pick_max_fold t [h] h Ht) as [Hin [_ [Hle Hpre]]].
  - unfold max_inv; split; [|split; [|split]].
    + left. reflexivity.
    + exact Hh.
    + intros z [Hz|[]]. subst. apply num_le_refl. exact Hh.
    + exists [], []. split; [reflexivity | intros z []].
  - split; [exact Hin|]. split; [exact Hle | exact Hpre].
Qed.

End Scans.

(** ** [createDailyReport] and the entry point *)

Section DailyReportProps.
Import Aggregator ScanSpec.

(** C2: on a non-empty list of floor plans with non-negative prices and
    prices per square foot (the data model's), [createDailyReport] returns
    a report whose cheapest unit's price is at most every positive price
    and whose best-value unit's price per square foot is at most every
    positive one; the cheapest and best-value units are the first positive
    minimum met by the scan, or the first floor plan when no value is
    positive (0 meaning "no candidate yet"), and the most expensive unit is
    the first maximum met. *)
Theorem createDailyReport_market_extremes
  (propertySummaries : list PropertySummary) (fps : list FloorPlan) (now : Z)
  (Hne : fps <> [])
  (Hwf : Forall (fun fp => num_le (nz 0) (price fp) = true /\
                           num_le (nz 0) (pricePerSqFt fp) = true) fps) :
  exists r, createDailyReport propertySummaries fps now = Ok r /\
  let m := marketSummary r in
  (forall fp, In fp fps -> positive (price fp) = true ->
     num_le (price (cheapestUnit m)) (price fp) = true) /\
  (forall fp, In fp fps -> positive (pricePerSqFt fp) = true ->
     num_le (pricePerSqFt (bestValueUnit m)) (pricePerSqFt fp) = true) /\
  scan_min price fps (cheapestUnit m) /\
  scan_max fps (mostExpensiveUnit m) /\
  scan_min pricePerSqFt fps (bestValueUnit m).
Proof.
  destruct fps as [|h t]; [congruence|].
  assert (Hp : Forall (fun y => num_le (nz 0) (price y) = true) (h :: t))
    by (eapply Forall_impl; [|exact Hwf]; intros a [Ha _]; exact Ha).
  assert (Hq : Forall (fun y => num_le (nz 0) (pricePerSqFt y) = true) (h :: t))
    by (eapply Forall_impl; [|exact Hwf]; intros a [_ Ha]; exact Ha).
  assert (Hn : Forall (fun y => isNaN (price y) = false) (h :: t))
    by (eapply Forall_impl; [|exact Hp]; intros a Ha; apply nonneg_not_NaN; exact Ha).
  pose proof (cheapest_scan price h t Hp) as Hc.
  pose proof (most_expensive_scan h t Hn) as Hm.
  pose proof (cheapest_scan pricePerSqFt h t Hq) as Hb.
  eexists. split; [reflexivity|]. simpl.
  split; [|split; [|split; [exact Hc | split; [exact Hm | exact Hb]]]].
  - intros fp Hfp Pfp. destruct Hc as [_ [Hc _]].
    destruct Hc as [_ [Hle _]]; [exists fp; split; assumption|].
    apply Hle; assumption.
  - intros fp Hfp Pfp. destruct Hb as [_ [Hb _]].
    destruct Hb as [_ [Hle _]]; [exists fp; split; assumption|].
    apply Hle; assumption.
Qed.

Lemma createDailyReport_market_extremes_witness :
  [sample_plan; unpriced_plan] <> [] /\
  Forall (fun fp => num_le (nz 0) (price fp) = true /\
                    num_le (nz 0) (pricePerSqFt fp) = true) [sample_plan; unpriced_plan] /\
  exists r, createDailyReport [] [sample_plan; unpriced_plan] 0 = Ok r /\
    cheapestUnit (marketSummary r) = sample_plan.
Proof.
  assert (H1 : [sample_plan; unpriced_plan] <> []) by discriminate.
  assert (H2 : Forall (fun fp => num_le (nz 0) (price fp) = true /\
                                 num_le (nz 0) (pricePerSqFt fp) = true)
                      [sample_plan; unpriced_plan])
    by (repeat constructor).
  split; [exact H1|]. split; [exact H2|].
  destruct (createDailyReport_market_extremes [] _ 0 H1 H2) as [r [Hr _]].
  exists r. split; [exact Hr|].
  vm_compute in Hr. injection Hr as <-. reflexivity.
Defined.

(** C9: [createDailyReport] throws on the empty floor-plan list (the scans
    reduce without an initial value) and returns a report on every
    non-empty one; [main] never reaches the throwing call, since it returns
    before aggregating exactly when every site yielded no floor plan. *)
Theorem createDailyReport_partial
  (propertySummaries : list PropertySummary) (now : Z) :
  (exists e, createDailyReport propertySummaries [] now = Err e) /\
  (forall fps, fps <> [] ->
     exists r, createDailyReport propertySummaries fps now = Ok r) /\
  (forall camdenPlans columnsPlans driftPlans,
     (Main.main_phase2 camdenPlans columnsPlans driftPlans now = Ok None <->
      camdenPlans = [] /\ columnsPlans = [] /\ driftPlans = []) /\
     forall e, Main.main_phase2 camdenPlans columnsPlans driftPlans now <> Err e).
Proof.
  split; [eexists; reflexivity|]. split.
  - intros [|h t] Hne; [congruence|]. eexists. reflexivity.
  - intros c l d. unfold Main.main_phase2.
    destruct (c ++ l ++ d) as [|h t] eqn:E.
    + simpl. split; [|intros e; discriminate].
      apply app_eq_nil in E. destruct E as [Hc E]. apply app_eq_nil in E.
      destruct E as [Hl Hd]. tauto.
    + simpl. split.
      * split; [discriminate|]. intros [Hc [Hl Hd]]. subst. discriminate.
      * intros e. discriminate.
Qed.

Lemma createDailyReport_partial_witness :
  [sample_plan] <> [] /\
  exists r, createDailyReport [] [sample_plan] 0 = Ok r.
Proof.
  assert (H : [sample_plan] <> []) by discriminate.
  split; [exact H|].
  exact (proj1 (proj2 (createDailyReport_partial [] 0)) [sample_plan] H).
Defined.

End DailyReportProps.

(** ** The clock in [createDailyReport] *)

Section Clock.

Lemma split_on_not_nil (c : ascii) (s : list ascii) : split_on c s <> [].
Proof.
  induction s as [|a t IH]; simpl; [discriminate|].
  destruct (Ascii.eqb a c); [discriminate|].
  destruct (split_on c t); [contradiction|discriminate].
Qed.

(** The first piece of a split only depends on the text before the first
    separator. *)
Lemma split_on_head (c : ascii) (D R R' : list ascii) :
  (forall x, In x D -> x <> c) ->
  hd_error (split_on c (D ++ c :: R)) = hd_error (split_on c (D ++ c :: R')).
Proof.
  induction D as [|a D IH]; intros HD; simpl.
  - rewrite (proj2 (Ascii.eqb_eq c c) eq_refl). reflexivity.
  - destruct (Ascii.eqb a c) eqn:E.
    + apply Ascii.eqb_eq in E. exfalso. exact (HD a (or_introl eq_refl) E).
    + assert (IH' := IH (fun x Hx => HD x (or_intror Hx))).
      pose proof (split_on_not_nil c (D ++ c :: R)) as N1.
      pose proof (split_on_not_nil c (D ++ c :: R')) as N2.
      destruct (split_on c (D ++ c :: R)) as [|w ws]; [contradiction|].
      destruct (split_on c (D ++ c :: R')) as [|w' ws']; [contradiction|].
      simpl in IH' |- *. injection IH' as ->. reflexivity.
Qed.

Lemma digit_not_T (n : Z) : ascii_of_nat (Z.to_nat (48 + n mod 10)) <> "T"%char.
Proof.
  assert (Hb : 0 <= n mod 10 < 10) by (apply Z.mod_pos_bound; lia).
  assert (Hk : n mod 10 = 0 \/ n mod 10 = 1 \/ n mod 10 = 2 \/ n mod 10 = 3 \/
               n mod 10 = 4 \/ n mod 10 = 5 \/ n mod 10 = 6 \/ n mod 10 = 7 \/
               n mod 10 = 8 \/ n mod 10 = 9) by lia.
  destruct Hk as [H|[H|[H|[H|[H|[H|[H|[H|[H|H]]]]]]]]]; rewrite H; discriminate.
Qed.

Lemma digits_of_nat_not_T (fuel : nat) (n : Z) (acc : list ascii) :
  (forall x, In x acc -> x <> "T"%char) ->
  forall x, In x (digits_of_nat fuel n acc) -> x <> "T"%char.
Proof.
  revert n acc. induction fuel as [|f IH]; intros n acc Hacc; simpl; [exact Hacc|].
  assert (Hacc' : forall x, In x (ascii_of_nat (Z.to_nat (48 + n mod 10)) :: acc) ->
                            x <> "T"%char).
  { intros x [<-|Hx]; [apply digit_not_T | exact (Hacc x Hx)]. }
  destruct (n <? 10); [exact Hacc' | exact (IH _ _ Hacc')].
Qed.

Lemma pad_not_T (w : nat) (z : Z) (x : ascii) :
  In x (pad w z) -> x <> "T"%char.
Proof.
  unfold pad. intros Hx.
  apply in_app_or in Hx. destruct Hx as [Hx|Hx].
  - apply repeat_spec in Hx. subst x. discriminate.
  - exact (digits_of_nat_not_T 20 z [] (fun _ H => match H with end) x Hx).
Qed.

Lemma iso_date_part_not_T (days : Z) (x : ascii) :
  In x (iso_date_part days) -> x <> "T"%char.
Proof.
  unfold iso_date_part. destruct (civil_from_days days) as [[y m] d].
  intros Hx. apply in_app_or in Hx. destruct Hx as [Hx|Hx].
  - destruct ((0 <=? y) && (y <=? 9999))%bool.
    + exact (pad_not_T _ _ _ Hx).
    + destruct Hx as [<-|Hx]; [destruct (y <? 0); discriminate|].
      exact (pad_not_T _ _ _ Hx).
  - destruct Hx as [<-|Hx]; [discriminate|].
    apply in_app_or in Hx. destruct Hx as [Hx|Hx]; [exact (pad_not_T _ _ _ Hx)|].
    destruct Hx as [<-|Hx]; [discriminate|]. exact (pad_not_T _ _ _ Hx).
Qed.

(** The date stamp only depends on the UTC day of the clock reading. *)
Lemma date_stamp_day (t : Z) :
  Aggregator.date_stamp t =
  match split_on "T"%char (iso_date_part (t / ms_per_day) ++ ["T"%char]) with
  | (_ :: _) as d :: _ => d
  | _ => date_string_of_days (t / ms_per_day)
  end.
Proof.
  unfold Aggregator.date_stamp, toISOString, toDateString.
  pose proof (split_on_head "T"%char (iso_date_part (t / ms_per_day))
                (iso_time_part (t mod ms_per_day)) []
                (iso_date_part_not_T (t / ms_per_day))) as H.
  destruct (split_on "T"%char (iso_date_part (t / ms_per_day) ++
                               "T"%char :: iso_time_part (t mod ms_per_day))) as [|a l] eqn:E1;
    [exfalso; exact (split_on_not_nil _ _ E1)|].
  destruct (split_on "T"%char (iso_date_part (t / ms_per_day) ++ ["T"%char])) as [|b l'] eqn:E2;
    [exfalso; exact (split_on_not_nil _ _ E2)|].
  simpl in H. injection H as ->. reflexivity.
Qed.

Lemma date_stamp_same_day (t1 t2 : Z) :
  t1 / ms_per_day = t2 / ms_per_day ->
  Aggregator.date_stamp t1 = Aggregator.date_stamp t2.
Proof. intros H. rewrite !date_stamp_day, H. reflexivity. Qed.

(** Apart from the date stamp, [createDailyReport] does not read the
    clock. *)
Lemma createDailyReport_without_date (ss : list PropertySummary)
  (fps : list FloorPlan) (t1 t2 : Z) :
  without_date (Aggregator.createDailyReport ss fps t1) =
  without_date (Aggregator.createDailyReport ss fps t2).
Proof.
  unfold Aggregator.createDailyReport.
  destruct (reduce1 (Aggregator.pick_min price) fps); [|reflexivity].
  destruct (reduce1 Aggregator.pick_max fps); [|reflexivity].
  destruct (reduce1 (Aggregator.pick_min pricePerSqFt) fps); reflexivity.
Qed.

Lemma createDailyReport_same_day_eq (ss : list PropertySummary)
  (fps : list FloorPlan) (t1 t2 : Z) :
  t1 / ms_per_day = t2 / ms_per_day ->
  Aggregator.createDailyReport ss fps t1 = Aggregator.createDailyReport ss fps t2.
Proof.
  intros H. unfold Aggregator.createDailyReport.
  rewrite (date_stamp_same_day t1 t2 H). reflexivity.
Qed.

(** C4 (counterexample): two calls of [createDailyReport] on the same
    arguments, one day apart, return different reports. *)
Lemma createDailyReport_reads_clock :
  Aggregator.createDailyReport [] [sample_plan] 0 <>
  Aggregator.createDailyReport [] [sample_plan] 86400000.
Proof. vm_compute. discriminate. Qed.

(** C4 (amended): [createPropertySummary] reads no clock (it is a function
    of its two arguments); [createDailyReport] returns, on the same
    arguments, reports equal in everything but the date stamp, and equal
    reports when the two calls fall on the same UTC day. *)
Theorem createDailyReport_deterministic_but_date
  (ss : list PropertySummary) (fps : list FloorPlan) (t1 t2 : Z) :
  without_date (Aggregator.createDailyReport ss fps t1) =
  without_date (Aggregator.createDailyReport ss fps t2) /\
  (t1 / ms_per_day = t2 / ms_per_day ->
   Aggregator.createDailyReport ss fps t1 = Aggregator.createDailyReport ss fps t2).
Proof.
  split; [apply createDailyReport_without_date | apply createDailyReport_same_day_eq].
Qed.

Lemma createDailyReport_deterministic_but_date_witness :
  0 / ms_per_day = 3600000 / ms_per_day /\
  Aggregator.createDailyReport [] [sample_plan] 0 =
  Aggregator.createDailyReport [] [sample_plan] 3600000.
Proof.
  split; [reflexivity|].
  apply (proj2 (createDailyReport_deterministic_but_date [] [sample_plan] 0 3600000)).
  reflexivity.
Defined.

End Clock.

(** ** Error handling of the site extractors *)

Section ScraperProps.
Import Effects.

Lemma try_catch_total {E A} (m : M E A) (h : js_error -> M E A) env l :
  (forall x env l, exists v l', h x env l = (Ok v, l')) ->
  exists v l', try_catch m h env l = (Ok v, l').
Proof.
  intros Hh. unfold try_catch. destruct (m env l) as [[v|x] l'].
  - eauto.
  - apply Hh.
Qed.

(** The outer [try]/[catch] of an extractor always ends normally. *)
Ltac inner_total :=
  match goal with
  | |- context [try_catch ?m ?h ?env ?l] =>
    let v := fresh "v" in let l' := fresh "l'" in let E := fresh "E" in
    destruct (try_catch_total m h env l) as (v & l' & E);
    [intros ? ? ?; unfold bind, log, ret; eauto | rewrite E]
  end.

Ltac res_cases :=
  repeat match goal with
  | |- context [match ?x with Ok _ => _ | Err _ => _ end] =>
    let E := fresh "Er" in destruct x eqn:E; simpl
  end.

Lemma scrapeColumns_err (env : Columns.Env) (l : log_t) (e : js_error) :
  fst (Columns.scrapeColumns env l) = Err e <->
  (exists u, Columns.launch env = Ok u) /\ Columns.close env = Err e.
Proof.
  unfold Columns.scrapeColumns. unfold bind at 1. unfold log at 1.
  unfold try_finally. inner_total.
  unfold Columns.close_browser, bind, asks, call, log, ret.
  destruct (Columns.launch env) as [u|x]; simpl.
  - destruct (Columns.close env) as [[]|y]; simpl; split.
    + discriminate.
    + intros [_ H]; discriminate.
    + intros H; inversion H; subst; eauto.
    + intros [_ H]; congruence.
  - split; [discriminate|]. intros [[u H] _]; discriminate.
Qed.

Lemma scrapeCamden_err (env : Camden.Env) (l : log_t) (e : js_error) :
  fst (Camden.scrapeCamden env l) = Err e <->
  (exists u, Camden.launch env = Ok u) /\ Camden.close env = Err e.
Proof.
  unfold Camden.scrapeCamden. unfold bind at 1. unfold log at 1.
  unfold try_finally. inner_total.
  unfold Camden.close_browser, bind, asks, call, log, ret.
  destruct (Camden.launch env) as [u|x]; simpl.
  - destruct (Camden.close env) as [[]|y]; simpl; split.
    + discriminate.
    + intros [_ H]; discriminate.
    + intros H; inversion H; subst; eauto.
    + intros [_ H]; congruence.
  - split; [discriminate|]. intros [[u H] _]; discriminate.
Qed.

Lemma scrapeColumns_site_failure (env : Columns.Env) (l : log_t) (e : js_error) :
  (Columns.launch env = Err e \/ Columns.newPage env = Err e \/
   Columns.setExtraHTTPHeaders env = Err e \/ Columns.goto env = Err e \/
   Columns.waitForLoad env = Err e \/ Columns.title env = Err e \/
   Columns.waitForContent env = Err e \/ (forall sel, Columns.locate env sel = Err e)) ->
  Columns.close env = Ok tt ->
  fst (Columns.scrapeColumns env l) = Ok [].
Proof.
  intros H Hc.
  unfold Columns.scrapeColumns, Columns.extractColumnsFloorPlans, Columns.close_browser,
    try_finally, try_catch, bind, log, call, asks, ret, lift.
  simpl.
  destruct H as [H|[H|[H|[H|[H|[H|[H|H]]]]]]]; rewrite ?H; simpl; res_cases;
    try congruence; try reflexivity.
  unfold bind, call, log, ret; simpl. rewrite H. simpl. res_cases; congruence.
Qed.

Lemma scrapeCamden_site_failure (env : Camden.Env) (l : log_t) (e : js_error) :
  (Camden.launch env = Err e \/ Camden.newPage env = Err e \/
   Camden.setExtraHTTPHeaders env = Err e \/ Camden.goto env = Err e \/
   Camden.waitForLoad env = Err e \/ Camden.title env = Err e \/
   Camden.waitForSelector env = Err e \/ (forall a, Camden.evaluateCards env a = Err e)) ->
  Camden.close env = Ok tt ->
  fst (Camden.scrapeCamden env l) = Ok [].
Proof.
  intros H Hc.
  unfold Camden.scrapeCamden, Camden.extractCamdenFloorPlans, Camden.community_amenities,
    Camden.close_browser, try_finally, try_catch, bind, log, call, asks, ret, lift.
  simpl.
  destruct H as [H|[H|[H|[H|[H|[H|[H|H]]]]]]]; rewrite ?H; simpl; res_cases;
    try congruence; try reflexivity; rewrite ?H; simpl; res_cases; try congruence.
  match goal with
  | |- context [match ?o with Some _ => _ | None => _ end] => destruct o
  end; simpl; res_cases; rewrite ?H; simpl; res_cases; congruence.
Qed.

(** C7 (counterexample): an error raised while extracting one element of
    The Columns' page is logged and skipped, and the other elements still
    give a non-empty result; an error of [browser.close] in the [finally]
    block escapes [scrapeColumns]. *)
Lemma scrapeColumns_element_error_nonempty :
  fst (Columns.scrapeColumns flaky_page_env []) = Ok [Columns.process_plan good_plan] /\
  fst (Columns.scrapeColumns close_fail_env []) = Err (chars "Error: Target closed").
Proof. split; vm_compute; reflexivity. Qed.

End ScraperProps.

(** ** Error handling of the storage service *)

Section StorageProps.
Import Effects.

(** C8: once the data directory is there (or created), an error of
    [fs.writeFile] in [saveDailyReport] or [saveScrapingResult] is logged
    and rethrown unchanged to the caller. *)
Theorem save_write_error_rethrown (svc : Storage.StorageService)
  (env : Storage.Env) (l : log_t) (data : list ascii) (e : js_error)
  (report : DailyReport) (result : Storage.ScrapingResult)
  (Hdir : (is_ok (Storage.access env (Storage.dataDir svc))
           || is_ok (Storage.mkdir env (Storage.dataDir svc)))%bool = true) :
  (Storage.stringifyReport env report = Ok data ->
   Storage.writeFile env (Storage.pricesFile svc) data = Err e ->
   Storage.saveDailyReport svc report env l =
   (Err e, l ++ [chars "Error saving daily report: " ++ e])) /\
  (Storage.stringifyResult env result = Ok data ->
   Storage.writeFile env (Storage.resultFilePath svc result (Storage.now env)) data = Err e ->
   Storage.saveScrapingResult svc result env l =
   (Err e, l ++ [chars "Error saving scraping result: " ++ e])).
Proof.
  assert (Hens : Storage.ensureDataDirectory svc env l = (Ok tt, l)).
  { unfold Storage.ensureDataDirectory, try_catch, call.
    destruct (Storage.access env (Storage.dataDir svc)) as [[]|x]; [reflexivity|].
    destruct (Storage.mkdir env (Storage.dataDir svc)) as [[]|y]; [reflexivity|].
    discriminate Hdir. }
  split; intros Hs Hw.
  - unfold Storage.saveDailyReport, bind at 1. rewrite Hens.
    unfold try_catch, bind, call, log, throw. rewrite Hs, Hw. reflexivity.
  - unfold Storage.saveScrapingResult, bind at 1. rewrite Hens.
    unfold try_catch, bind, asks, call, log, throw. rewrite Hs, Hw. reflexivity.
Qed.

Lemma save_write_error_rethrown_witness :
  Storage.saveDailyReport (Storage.mkStorageService (chars "data")) sample_report
    write_fail_env [] =
  (Err (chars "Error: EACCES: permission denied"),
   [chars "Error saving daily report: " ++ chars "Error: EACCES: permission denied"]) /\
  Storage.saveScrapingResult (Storage.mkStorageService (chars "data")) sample_result
    write_fail_env [] =
  (Err (chars "Error: EACCES: permission denied"),
   [chars "Error saving scraping result: " ++ chars "Error: EACCES: permission denied"]).
Proof.
  destruct (save_write_error_rethrown (Storage.mkStorageService (chars "data"))
              write_fail_env [] (chars "{}") (chars "Error: EACCES: permission denied")
              sample_report sample_result eq_refl) as [H1 H2].
  split; [apply H1 | apply H2]; reflexivity.
Defined.

End StorageProps.

(** ** Regular-expression matches and the parsers built on them *)


Lemma rmatch_sound (f : nat) : forall r s cap k x,
  rmatch f r s cap k = Some x ->
  exists s' c', rm r s s' /\ k s' c' = Some x /\ (group_free r = true -> c' = cap).
Proof.
  induction f as [|f IH]; intros r s cap k x H; [discriminate|].
  destruct r as [p| |r1 r2|r1 r2|r1|r1]; simpl in H.
  - destruct s as [|c t]; [discriminate|].
    destruct (p c) eqn:Ep; [|discriminate].
    exists t, cap. split; [constructor; exact Ep|]. auto.
  - exists s, cap. split; [constructor|]. auto.
  - destruct (IH _ _ _ _ _ H) as (s1 & c1 & H1 & K1 & G1).
    destruct (IH _ _ _ _ _ K1) as (s2 & c2 & H2 & K2 & G2).
    exists s2, c2. split; [econstructor; eassumption|]. split; [exact K2|].
    simpl. intros G. apply andb_prop in G. destruct G as [Ga Gb].
    rewrite (G2 Gb). exact (G1 Ga).
  - destruct (rmatch f r1 s cap k) eqn:E1.
    + injection H as <-. destruct (IH _ _ _ _ _ E1) as (s' & c' & H1 & K1 & G1).
      exists s', c'. split; [apply rm_altl; exact H1|]. split; [exact K1|].
      simpl. intros G. apply andb_prop in G. exact (G1 (proj1 G)).
    + destruct (IH _ _ _ _ _ H) as (s' & c' & H1 & K1 & G1).
      exists s', c'. split; [apply rm_altr; exact H1|]. split; [exact K1|].
      simpl. intros G. apply andb_prop in G. exact (G1 (proj2 G)).
  - destruct (rmatch f r1 s cap _) eqn:E1.
    + injection H as <-. destruct (IH _ _ _ _ _ E1) as (s1 & c1 & H1 & K1 & G1).
      destruct (Nat.ltb (List.length s1) (List.length s)) eqn:L; [|discriminate].
      apply Nat.ltb_lt in L.
      destruct (IH _ _ _ _ _ K1) as (s2 & c2 & H2 & K2 & G2).
      exists s2, c2. split; [eapply rm_star1; eassumption|]. split; [exact K2|].
      intros G. rewrite (G2 G). exact (G1 G).
    + exists s, cap. split; [constructor|]. auto.
  - destruct (IH _ _ _ _ _ H) as (s' & c' & H1 & K1 & G1).
    exists s', (Some (firstn (List.length s - List.length s') s)).
    split; [constructor; exact H1|]. split; [exact K1|]. discriminate.
Qed.

Lemma rm_suffix r s s' : rm r s s' -> exists pre, s = pre ++ s'.
Proof.
  induction 1.
  - exists []. reflexivity.
  - exists [c]. reflexivity.
  - destruct IHrm1 as [p1 ->]. destruct IHrm2 as [p2 ->]. exists (p1 ++ p2).
    rewrite app_assoc. reflexivity.
  - exact IHrm.
  - exact IHrm.
  - exists []. reflexivity.
  - destruct IHrm1 as [p1 ->]. destruct IHrm2 as [p2 ->]. exists (p1 ++ p2).
    rewrite app_assoc. reflexivity.
  - exact IHrm.
Qed.

Lemma firstn_prefix (pre s' : list ascii) :
  firstn (List.length (pre ++ s') - List.length s') (pre ++ s') = pre.
Proof.
  rewrite length_app, Nat.add_sub, firstn_app, Nat.sub_diag, firstn_O, app_nil_r.
  apply firstn_all.
Qed.


Lemma search_from_eq (r : regex) (s : list ascii) :
  search_from r s =
  match match_at r s with
  | Some (_, c) => Some c
  | None => match s with [] => None | _ :: t => search_from r t end
  end.
Proof. destruct s; reflexivity. Qed.

Lemma search_from_some (r : regex) (s : list ascii) (c : capture) :
  search_from r s = Some c ->
  exists pre s0 rest, s = pre ++ s0 /\ match_at r s0 = Some (rest, c).
Proof.
  induction s as [|a t IH]; intros H; rewrite search_from_eq in H;
    destruct (match_at r _) as [[rest c']|] eqn:E.
  - injection H as <-. exists [], [], rest. auto.
  - discriminate.
  - injection H as <-. exists [], (a :: t), rest. auto.
  - destruct (IH H) as (pre & s0 & rest & -> & M).
    exists (a :: pre), s0, rest. auto.
Qed.

Lemma rfuel_S (s : list ascii) : exists n, rfuel s = S (S n).
Proof. exists (198 + 40 * List.length s)%nat. unfold rfuel. lia. Qed.

Lemma match_at_group (r : regex) (s rest : list ascii) (c : capture) :
  match_at (RGroup r) s = Some (rest, c) ->
  exists g, c = Some g /\ s = g ++ rest /\ rm r (g ++ rest) rest.
Proof.
  unfold match_at. destruct (rfuel_S s) as [n ->]. intros H.
  change (rmatch (S n) r s None
            (fun s' _ => Some (s', Some (firstn (List.length s - List.length s') s))) =
          Some (rest, c)) in H.
  destruct (rmatch_sound _ _ _ _ _ _ H) as (s' & c' & Hm & K & _).
  injection K as <- <-.
  destruct (rm_suffix _ _ _ Hm) as [pre ->].
  exists pre. rewrite firstn_prefix. auto.
Qed.



Lemma rm_first (r : regex) (s s' : list ascii) :
  rm r s s' -> forall p, first_pred r = Some p ->
  exists c t, s = c :: t /\ p c = true /\ exists pre, t = pre ++ s'.
Proof.
  induction 1; simpl; intros q Hq; try discriminate.
  - injection Hq as <-. exists c, t. split; [reflexivity|]. split; [assumption|].
    exists []. reflexivity.
  - destruct (IHrm1 q Hq) as (c & t & -> & Hc & pre & ->).
    destruct (rm_suffix _ _ _ H0) as [pre2 ->].
    exists c, (pre ++ pre2 ++ s2). split; [rewrite app_assoc; reflexivity|].
    split; [exact Hc|]. exists (pre ++ pre2). apply app_assoc.
  - exact (IHrm q Hq).
Qed.

Lemma capture_head (r : regex) (p : ascii -> bool) (g rest : list ascii) :
  first_pred r = Some p -> rm r (g ++ rest) rest ->
  exists c t, g = c :: t /\ p c = true.
Proof.
  intros Hp Hm. destruct (rm_first _ _ _ Hm p Hp) as (c & t & E & Hc & pre & ->).
  exists c, pre. split; [|exact Hc].
  apply (app_inv_tail rest). rewrite E. reflexivity.
Qed.

(** The capture of [str_match] for a pattern "(body)" or "(body)rest". *)
Lemma str_match_group_head (r : regex) (p : ascii -> bool) (s : list ascii) (c : capture) :
  str_match (RGroup r) s = Some c -> first_pred r = Some p ->
  exists a t, c = Some (a :: t) /\ p a = true.
Proof.
  intros H Hp. destruct (search_from_some _ _ _ H) as (pre & s0 & rest & _ & M).
  destruct (match_at_group _ _ _ _ M) as (g & -> & _ & Hm).
  destruct (capture_head _ _ _ _ Hp Hm) as (a & t & -> & Ha). eauto.
Qed.


(** ** parseInt and parseFloat on text starting with a digit *)

Lemma take_digits_digits (s : list ascii) :
  Forall (fun c => is_digit c = true) (fst (take_digits s)).
Proof.
  induction s as [|c t IH]; simpl; [constructor|].
  destruct (is_digit c) eqn:E; [|constructor].
  destruct (take_digits t) as [d r]. simpl in *. constructor; assumption.
Qed.

Lemma take_digits_head (c : ascii) (t : list ascii) :
  is_digit c = true -> exists d, fst (take_digits (c :: t)) = c :: d.
Proof.
  intros H. simpl. rewrite H. destruct (take_digits t) as [d r]. exists d. reflexivity.
Qed.

Lemma digit_val_nonneg (c : ascii) : is_digit c = true -> 0 <= digit_val c.
Proof.
  unfold is_digit, digit_val. intros H. apply andb_prop in H. destruct H as [H _].
  apply Nat.leb_le in H. lia.
Qed.

Lemma digits_Z_nonneg (d : list ascii) :
  Forall (fun c => is_digit c = true) d -> 0 <= digits_Z d.
Proof.
  unfold digits_Z. intros H.
  assert (G : forall acc, 0 <= acc ->
            0 <= fold_left (fun acc c => 10 * acc + digit_val c) d acc).
  { induction H as [|c t Hc Ht IH]; intros acc Ha; cbn [fold_left]; [exact Ha|].
    apply IH. pose proof (digit_val_nonneg c Hc). lia. }
  apply G. lia.
Qed.

Lemma is_digit_not_space (c : ascii) : is_digit c = true -> is_space c = false.
Proof.
  unfold is_digit, is_space. intros H. apply andb_prop in H. destruct H as [H1 H2].
  apply Nat.leb_le in H1. apply Nat.leb_le in H2.
  apply orb_false_intro; [apply Nat.eqb_neq; lia|].
  apply andb_false_intro2. apply Nat.leb_gt. lia.
Qed.

Lemma parseInt_digit (c : ascii) (t : list ascii) :
  is_digit c = true -> exists n, parseInt (c :: t) = nz n /\ 0 <= n.
Proof.
  intros Hc. unfold parseInt. simpl trim_start. rewrite (is_digit_not_space c Hc).
  pose proof (take_digits_digits (c :: t)) as Hd.
  destruct (take_digits_head c t Hc) as [d E]. rewrite E in *.
  exists (digits_Z (c :: d)). split; [reflexivity|]. apply digits_Z_nonneg. exact Hd.
Qed.

Lemma parseFloat_digit (c : ascii) (t : list ascii) :
  is_digit c = true -> exists q, parseFloat (c :: t) = Fin q /\ (0 <= q)%Q.
Proof.
  intros Hc. unfold parseFloat. simpl trim_start. rewrite (is_digit_not_space c Hc).
  pose proof (take_digits_digits (c :: t)) as Hd.
  destruct (take_digits_head c t Hc) as [d E].
  destruct (take_digits (c :: t)) as [ip rest]. simpl in E, Hd. subst ip.
  set (fp := match rest with
             | c0 :: t0 => if Ascii.eqb c0 "."%char then fst (take_digits t0) else []
             | [] => []
             end).
  assert (Hfp : Forall (fun c => is_digit c = true) fp).
  { unfold fp. destruct rest as [|c0 t0]; [constructor|].
    destruct (Ascii.eqb c0 "."%char); [apply take_digits_digits | constructor]. }
  eexists. split; [reflexivity|].
  rewrite Qred_correct.
  assert (H1 : 0 <= digits_Z ((c :: d) ++ fp)) by (apply digits_Z_nonneg, Forall_app; auto).
  assert (H2 : 0 < 10 ^ Z.of_nat (List.length fp)) by (apply Z.pow_pos_nonneg; lia).
  apply Qle_shift_div_l; [unfold Qlt, inject_Z; cbn [Qnum Qden]; lia|].
  rewrite Qmult_0_l. unfold Qle, inject_Z; cbn [Qnum Qden]. lia.
Qed.

Lemma digit_neq (a x : ascii) : is_digit a = true -> is_digit x = false -> Ascii.eqb a x = false.
Proof.
  intros Ha Hx. destruct (Ascii.eqb a x) eqn:E; [|reflexivity].
  apply Ascii.eqb_eq in E. subst. congruence.
Qed.

Lemma remove_commas_digit (a : ascii) (t : list ascii) :
  is_digit a = true -> remove_commas (a :: t) = a :: remove_commas t.
Proof.
  intros Ha. unfold remove_commas. simpl. rewrite (digit_neq a ","%char Ha eq_refl).
  reflexivity.
Qed.

Lemma parseSquareFootage_nonneg_int_fin (s : list ascii) :
  exists n, DataProcessor.parseSquareFootage s = nz n /\ 0 <= n.
Proof.
  unfold DataProcessor.parseSquareFootage.
  destruct (is_truthy_str s); cbn [negb]; [|exists 0; split; [reflexivity | lia]].
  destruct (str_match DataProcessor.sqft_re s) as [c|] eqn:E;
    [|exists 0; split; [reflexivity | lia]].
  destruct (str_match_group_head _ is_digit _ _ E eq_refl) as (a & t & -> & Ha).
  unfold group1. rewrite (remove_commas_digit a t Ha). apply parseInt_digit. exact Ha.
Qed.



Lemma parsePrice_nonneg_fin (s : list ascii) :
  exists q, DataProcessor.parsePrice s = Fin q /\ (0 <= q)%Q.
Proof.
  unfold DataProcessor.parsePrice.
  destruct (is_truthy_str s); cbn [negb]; [|eexists; split; [reflexivity | discriminate]].
  rewrite parsePrice_range_branch_dead.
  destruct (str_match DataProcessor.price_re (filter DataProcessor.price_char s)) as [c|] eqn:E;
    [|eexists; split; [reflexivity | discriminate]].
  destruct (str_match_group_head _ is_digit _ _ E eq_refl) as (a & t & -> & Ha).
  unfold group1. rewrite (remove_commas_digit a t Ha). apply parseFloat_digit. exact Ha.
Qed.

Lemma fin_nonneg_sign (v : num) :
  (exists q, v = Fin q /\ (0 <= q)%Q) ->
  v <> NaN /\ v <> NInf /\ (forall x, v = Fin x -> (0 <= x)%Q).
Proof.
  intros (q & -> & Hq). split; [discriminate|]. split; [discriminate|].
  intros x Hx. injection Hx as <-. exact Hq.
Qed.


Section Cents.
Local Open Scope Q_scope.

Lemma calc_cents (p s : Q) :
  0 < p -> 0 < s ->
  exists q n, DataProcessor.calculatePricePerSqFt (Fin p) (Fin s) = Fin q /\
    q == inject_Z n / 100 /\ Qabs (q - p / s) <= 1 # 200.
Proof.
  intros Hp Hs. unfold DataProcessor.calculatePricePerSqFt.
  change (nz 0) with (Fin 0).
  assert (E1 : num_le (Fin p) (Fin 0) = false).
  { destruct (num_le (Fin p) (Fin 0)) eqn:E; [|reflexivity].
    apply num_le_Fin in E. exfalso. lra. }
  assert (E2 : num_le (Fin s) (Fin 0) = false).
  { destruct (num_le (Fin s) (Fin 0)) eqn:E; [|reflexivity].
    apply num_le_Fin in E. exfalso. lra. }
  rewrite E1, E2. cbn [orb].
  assert (Hs0 : Qeq_bool s 0 = false).
  { destruct (Qeq_bool s 0) eqn:E; [|reflexivity].
    apply Qeq_bool_iff in E. exfalso. lra. }
  unfold num_div at 2. rewrite Hs0.
  change (nz 100) with (Fin 100).
  unfold fin at 1. unfold num_mul, fin at 1. unfold Math_round.
  set (n := Qfloor (Qred (Qred (p / s) * 100) + (1 # 2))).
  unfold nz, fin. unfold num_div.
  change (Qeq_bool 100 0) with false.
  eexists. exists n. split; [reflexivity|].
  assert (Hz : Qred (Qred (p / s) * 100) + (1 # 2) == p / s * 100 + (1 # 2)).
  { rewrite !Qred_correct. reflexivity. }
  assert (Hn : n = Qfloor (p / s * 100 + (1 # 2))) by (unfold n; rewrite Hz; reflexivity).
  pose proof (Qfloor_le (p / s * 100 + (1 # 2))) as Hlo.
  pose proof (Qlt_floor (p / s * 100 + (1 # 2))) as Hhi.
  rewrite <- Hn in Hlo, Hhi. rewrite inject_Z_plus in Hhi.
  split; [rewrite !Qred_correct; reflexivity|].
  rewrite !Qred_correct. apply Qabs_Qle_condition.
  set (w := p / s) in *. set (m := inject_Z n) in *.
  change (inject_Z 1) with 1 in Hhi.
  clearbody w m. clear Hz Hn.
  unfold Qdiv. change (/ 100) with (1 # 100).
  split; lra.
Qed.

End Cents.

Section PlanFields.
Local Open Scope Q_scope.

Lemma calc_cases (p s : Q) :
  (p <= 0 \/ s <= 0) /\ DataProcessor.calculatePricePerSqFt (Fin p) (Fin s) = nz 0 \/
  (0 < p /\ 0 < s) /\
  DataProcessor.calculatePricePerSqFt (Fin p) (Fin s) =
  num_div (Math_round (num_mul (num_div (Fin p) (Fin s)) (nz 100))) (nz 100).
Proof.
  unfold DataProcessor.calculatePricePerSqFt. change (nz 0) with (Fin 0).
  destruct (num_le (Fin p) (Fin 0)) eqn:E1.
  - left. apply num_le_Fin in E1. split; [left; exact E1 | reflexivity].
  - destruct (num_le (Fin s) (Fin 0)) eqn:E2.
    + left. apply num_le_Fin in E2. split; [right; exact E2 | reflexivity].
    + right. split; [|reflexivity].
      split; apply Qnot_le_lt; intro H; apply num_le_Fin in H; congruence.
Qed.

Lemma calc_fin_nonneg (p s : Q) :
  exists q, DataProcessor.calculatePricePerSqFt (Fin p) (Fin s) = Fin q /\ 0 <= q.
Proof.
  destruct (calc_cases p s) as [[_ ->]|[[Hp Hs] _]].
  { eexists; split; [reflexivity|]. unfold Qle; simpl; lia. }
  destruct (calc_cents p s Hp Hs) as (q & n & -> & Hq & Hb).
  exists q; split; [reflexivity|].
  apply Qabs_Qle_condition in Hb. destruct Hb as [Hb _].
  assert (Hw : 0 < p / s) by (apply Qlt_shift_div_l; lra).
  set (m := inject_Z n) in *. set (w := p / s) in *.
  assert (Hm : - (1 # 2) < m).
  { clearbody w m. unfold Qdiv in Hq. change (/ 100) with (1 # 100) in Hq. lra. }
  assert (Hn : (0 <= n)%Z).
  { destruct (Z.le_gt_cases 0 n) as [H|H]; [exact H|].
    assert (H' : inject_Z n <= inject_Z (-1)) by (rewrite <- Zle_Qle; lia).
    subst m. change (inject_Z (-1)) with (-1) in H'. lra. }
  assert (H0 : 0 <= m) by (subst m; change 0 with (inject_Z 0); rewrite <- Zle_Qle; exact Hn).
  clearbody w m. unfold Qdiv in Hq. change (/ 100) with (1 # 100) in Hq. lra.
Qed.

Lemma num_gt_zero (s : Q) : num_gt (Fin s) (nz 0) = true <-> 0 < s.
Proof. unfold num_gt. change (nz 0) with (Fin 0). apply num_lt_Fin. Qed.

Lemma num_gt_zero_false (s : Q) : s <= 0 -> num_gt (Fin s) (nz 0) = false.
Proof.
  intro H. destruct (num_gt (Fin s) (nz 0)) eqn:E; [|reflexivity].
  apply num_gt_zero in E. lra.
Qed.

Lemma process_plan_ppsf_calc (plan : Columns.TempPlan) :
  let fp := Columns.process_plan plan in
  pricePerSqFt fp = DataProcessor.calculatePricePerSqFt (price fp) (squareFootage fp).
Proof.
  unfold Columns.process_plan; cbn [pricePerSqFt price squareFootage].
  destruct (parsePrice_nonneg_fin (Columns.tp_price plan)) as [p [-> Hp]].
  destruct (parseSquareFootage_nonneg_int_fin (Columns.tp_squareFootage plan)) as [n [-> Hn]].
  change (nz n) with (Fin (Qred (inject_Z n))).
  set (s := Qred (inject_Z n)).
  destruct (calc_cases p s) as [[Hc ->]|[[Hpp Hs] ->]].
  - destruct (Qlt_le_dec 0 s) as [Hs|Hs].
    + destruct Hc as [Hc|Hc]; [|lra].
      apply num_gt_zero in Hs as Hg. rewrite Hg.
      unfold num_div at 2. destruct (Qeq_bool s 0) eqn:E.
      { apply Qeq_bool_iff in E. lra. }
      unfold fin. rewrite (Qred_complete (p / s) 0).
      * reflexivity.
      * assert (Hp0 : p == 0) by lra. rewrite Hp0. unfold Qdiv. ring.
    + rewrite (num_gt_zero_false s Hs). reflexivity.
  - apply num_gt_zero in Hs. rewrite Hs. reflexivity.
Qed.


End PlanFields.

Section BedroomCounts.
Import Aggregator.
Import ExtraSpec.

Lemma num_eqb_nz_excl (b : num) (i j : Z) :
  i <> j -> num_eqb b (nz i) = true -> num_eqb b (nz j) = false.
Proof.
  intros Hij H. destruct b as [x| | |]; try discriminate.
  unfold num_eqb, nz, fin in *. apply Qeq_bool_iff in H. rewrite Qred_correct in H.
  destruct (Qeq_bool x (Qred (inject_Z j))) eqn:E; [|reflexivity].
  apply Qeq_bool_iff in E. rewrite Qred_correct in E. rewrite H in E.
  apply (proj1 (inject_Z_injective i j)) in E. congruence.
Qed.

Ltac excl E i :=
  repeat match goal with
  | |- context [num_eqb ?b (nz ?j)] =>
    rewrite (num_eqb_nz_excl b i j ltac:(discriminate) E)
  end.


Lemma count_bedroom_fields (acc : BedroomDistribution) (fp : FloorPlan) :
  let d := count_bedroom acc fp in
  bd_studio d = (bd_studio acc + cnt (small_bed 0) fp)%nat /\
  bd_oneBed d = (bd_oneBed acc + cnt (small_bed 1) fp)%nat /\
  bd_twoBed d = (bd_twoBed acc + cnt (small_bed 2) fp)%nat /\
  bd_threeBed d = (bd_threeBed acc + cnt (small_bed 3) fp)%nat /\
  bd_fourPlusBed d = (bd_fourPlusBed acc + cnt other_bed fp)%nat.
Proof.
  destruct acc as [s o t th f]. unfold count_bedroom, cnt, other_bed, small_bed; cbn zeta.
  destruct (num_eqb (bedrooms fp) (nz 0)) eqn:E0.
  { excl E0 0. cbn. lia. }
  destruct (num_eqb (bedrooms fp) (nz 1)) eqn:E1.
  { excl E1 1. cbn. lia. }
  destruct (num_eqb (bedrooms fp) (nz 2)) eqn:E2.
  { excl E2 2. cbn. lia. }
  destruct (num_eqb (bedrooms fp) (nz 3)) eqn:E3; cbn; lia.
Qed.

Lemma length_filter_cons {A} (p : A -> bool) (x : A) (l : list A) :
  List.length (filter p (x :: l)) = ((if p x then 1 else 0) + List.length (filter p l))%nat.
Proof. simpl. destruct (p x); reflexivity. Qed.

Lemma fold_count_bedroom (fps : list FloorPlan) (acc : BedroomDistribution) :
  let d := fold_left count_bedroom fps acc in
  bd_studio d = (bd_studio acc + List.length (filter (small_bed 0) fps))%nat /\
  bd_oneBed d = (bd_oneBed acc + List.length (filter (small_bed 1) fps))%nat /\
  bd_twoBed d = (bd_twoBed acc + List.length (filter (small_bed 2) fps))%nat /\
  bd_threeBed d = (bd_threeBed acc + List.length (filter (small_bed 3) fps))%nat /\
  bd_fourPlusBed d = (bd_fourPlusBed acc + List.length (filter other_bed fps))%nat.
Proof.
  revert acc. induction fps as [|fp fps IH]; intro acc.
  - cbn. lia.
  - cbn [fold_left]. destruct (IH (count_bedroom acc fp)) as (H1 & H2 & H3 & H4 & H5).
    destruct (count_bedroom_fields acc fp) as (G1 & G2 & G3 & G4 & G5).
    rewrite !length_filter_cons. unfold cnt in *.
    cbv zeta. rewrite H1, H2, H3, H4, H5, G1, G2, G3, G4, G5. lia.
Qed.

Lemma filter_partition_length (fps : list FloorPlan) :
  (List.length (filter (small_bed 0) fps) + List.length (filter (small_bed 1) fps) +
   List.length (filter (small_bed 2) fps) + List.length (filter (small_bed 3) fps) +
   List.length (filter other_bed fps))%nat = List.length fps.
Proof.
  induction fps as [|fp fps IH]; [reflexivity|].
  rewrite !length_filter_cons. cbn [List.length].
  unfold other_bed, small_bed in *.
  destruct (num_eqb (bedrooms fp) (nz 0)) eqn:E0.
  { excl E0 0. cbn. lia. }
  destruct (num_eqb (bedrooms fp) (nz 1)) eqn:E1.
  { excl E1 1. cbn. lia. }
  destruct (num_eqb (bedrooms fp) (nz 2)) eqn:E2.
  { excl E2 2. cbn. lia. }
  destruct (num_eqb (bedrooms fp) (nz 3)) eqn:E3; cbn; lia.
Qed.

Lemma length_filter_le {A} (p : A -> bool) (l : list A) :
  (List.length (filter p l) <= List.length l)%nat.
Proof.
  induction l as [|x l IH]; [reflexivity|]. rewrite length_filter_cons. cbn [List.length].
  destruct (p x); lia.
Qed.

(** X8: [createPropertySummary]'s bedroom distribution counts the floor
    plans with 0, 1, 2 and 3 bedrooms in its first four buckets and every
    other one (more bedrooms, a fraction or NaN) as "4+", so the buckets add
    up to [totalFloorPlans]; [availableUnits] never exceeds it. *)
Theorem createPropertySummary_bedroomDistribution (propertyName : list ascii)
  (fps : list FloorPlan) :
  let s := createPropertySummary propertyName fps in
  let d := bedroomDistribution s in
  bd_studio d = List.length (filter (small_bed 0) fps) /\
  bd_oneBed d = List.length (filter (small_bed 1) fps) /\
  bd_twoBed d = List.length (filter (small_bed 2) fps) /\
  bd_threeBed d = List.length (filter (small_bed 3) fps) /\
  bd_fourPlusBed d = List.length (filter other_bed fps) /\
  (bd_studio d + bd_oneBed d + bd_twoBed d + bd_threeBed d + bd_fourPlusBed d
   = totalFloorPlans s)%nat /\
  (availableUnits s <= totalFloorPlans s)%nat.
Proof.
  cbn [bedroomDistribution totalFloorPlans availableUnits createPropertySummary].
  destruct (fold_count_bedroom fps (mkBedroomDistribution 0 0 0 0 0))
    as (H1 & H2 & H3 & H4 & H5).
  cbn [bd_studio bd_oneBed bd_twoBed bd_threeBed bd_fourPlusBed] in *.
  rewrite H1, H2, H3, H4, H5. cbn [Nat.add].
  split; [reflexivity|]. split; [reflexivity|]. split; [reflexivity|].
  split; [reflexivity|]. split; [reflexivity|]. split.
  - apply filter_partition_length.
  - apply length_filter_le.
Qed.

End BedroomCounts.

Section ReportAverages.
Import Aggregator.

Lemma filter_positive_cons (f : FloorPlan -> num) (fps : list FloorPlan) :
  (exists fp, In fp fps /\ positive (f fp) = true) ->
  exists n, List.length (filter positive (map f fps)) = S n.
Proof.
  intros [fp [Hin Hp]].
  destruct (filter positive (map f fps)) as [|y ys] eqn:E; [|eexists; reflexivity].
  exfalso. assert (Hf : In (f fp) (filter positive (map f fps)))
    by (apply filter_In; split; [apply in_map; exact Hin | exact Hp]).
  rewrite E in Hf. destruct Hf.
Qed.

Lemma sum_fin_nonneg (xs : list num) (a : Q) :
  (0 <= a)%Q -> Forall (fun x => exists q, x = Fin q /\ (0 <= q)%Q) xs ->
  exists q, fold_left num_add xs (Fin a) = Fin q /\ (0 <= q)%Q.
Proof.
  intros Ha H. revert a Ha. induction H as [|x xs (q & -> & Hq) _ IH]; intros a Ha.
  - exists a. split; [reflexivity | exact Ha].
  - cbn [fold_left num_add]. unfold fin. apply IH. rewrite Qred_correct. lra.
Qed.

Lemma filter_fin_nonneg (f : FloorPlan -> num) (fps : list FloorPlan) :
  Forall (fun fp => exists q, f fp = Fin q) fps ->
  Forall (fun x => exists q, x = Fin q /\ (0 <= q)%Q) (filter positive (map f fps)).
Proof.
  intro H. apply Forall_forall. intros x Hx. apply filter_In in Hx as [Hx Hp].
  apply in_map_iff in Hx as [fp [<- Hin]]. rewrite Forall_forall in H.
  destruct (H fp Hin) as [q Hq]. exists q. split; [exact Hq|].
  rewrite Hq in Hp. unfold positive in Hp. apply num_gt_zero in Hp. lra.
Qed.

Lemma div_count_nonneg (q : Q) (n : nat) :
  (0 <= q)%Q -> exists q', num_div (Fin q) (nz (Z.of_nat (S n))) = Fin q' /\ (0 <= q')%Q.
Proof.
  intro Hq. unfold num_div, nz, fin.
  destruct (Qeq_bool (Qred (inject_Z (Z.of_nat (S n)))) 0) eqn:E.
  - exfalso. apply Qeq_bool_iff in E. rewrite Qred_correct in E.
    change 0%Q with (inject_Z 0) in E. apply (proj1 (inject_Z_injective _ _)) in E. lia.
  - eexists; split; [reflexivity|]. rewrite !Qred_correct.
    apply Qle_shift_div_l; [unfold Qlt, inject_Z; cbn [Qnum Qden]; lia|].
    rewrite Qmult_0_l. exact Hq.
Qed.

Lemma round_nonneg (q : Q) : (0 <= q)%Q -> exists k, Math_round (Fin q) = nz k /\ 0 <= k.
Proof.
  intro Hq. exists (Qfloor (q + (1 # 2))). split; [reflexivity|].
  change 0 with (Qfloor 0). apply Qfloor_resp_le. lra.
Qed.

Lemma nz_nonneg_Q (k : Z) : 0 <= k -> exists q, nz k = Fin q /\ (0 <= q)%Q.
Proof.
  intro Hk. exists (Qred (inject_Z k)). split; [reflexivity|].
  rewrite Qred_correct. unfold Qle, inject_Z; cbn [Qnum Qden]. lia.
Qed.

Lemma cents_nonneg (q : Q) :
  (0 <= q)%Q ->
  exists q', num_div (Math_round (num_mul (Fin q) (nz 100))) (nz 100) = Fin q' /\ (0 <= q')%Q.
Proof.
  intro Hq.
  assert (H1 : exists r, num_mul (Fin q) (nz 100) = Fin r /\ (0 <= r)%Q).
  { exists (Qred (q * Qred (inject_Z 100))). split; [reflexivity|].
    rewrite !Qred_correct. apply Qmult_le_0_compat; [exact Hq|].
    unfold Qle, inject_Z; cbn [Qnum Qden]. lia. }
  destruct H1 as (r & -> & Hr). destruct (round_nonneg r Hr) as (k & -> & Hk).
  exists (Qred (Qred (inject_Z k) / Qred (inject_Z 100))). split; [reflexivity|].
  rewrite !Qred_correct.
  apply Qle_shift_div_l; [unfold Qlt, inject_Z; cbn [Qnum Qden]; lia|].
  rewrite Qmult_0_l. unfold Qle, inject_Z; cbn [Qnum Qden]. lia.
Qed.

Lemma avg_nonneg (f : FloorPlan -> num) (fps : list FloorPlan) :
  (exists fp, In fp fps /\ positive (f fp) = true) ->
  Forall (fun fp => exists q, f fp = Fin q) fps ->
  exists q, num_div (sum (filter positive (map f fps)))
                    (nz (Z.of_nat (List.length (filter positive (map f fps))))) = Fin q /\
            (0 <= q)%Q.
Proof.
  intros Hp Hf. destruct (filter_positive_cons f fps Hp) as [n ->].
  assert (H0 : (0 <= Qred 0)%Q) by (unfold Qle; cbn; lia).
  destruct (sum_fin_nonneg _ (Qred 0) H0 (filter_fin_nonneg f fps Hf)) as (s & Hs & Hs0).
  unfold sum, fin. rewrite Hs. apply div_count_nonneg. exact Hs0.
Qed.

(** X9: a report of [createDailyReport] counts every floor plan in
    [totalUnits] and keeps the list; its average rent is NaN when no price
    is positive, and when some is (and the prices are finite) it is not
    NaN, not negative and not [-Infinity]; the same holds for the average
    price per square foot. *)
Theorem createDailyReport_averages (propertySummaries : list PropertySummary)
  (fps : list FloorPlan) (now : Z) (r : DailyReport)
  (H : createDailyReport propertySummaries fps now = Ok r) :
  let m := marketSummary r in
  totalUnits m = List.length fps /\ allFloorPlans r = fps /\
  (Forall (fun fp => positive (price fp) = false) fps -> avgRent m = NaN) /\
  ((exists fp, In fp fps /\ positive (price fp) = true) ->
   Forall (fun fp => exists q, price fp = Fin q) fps ->
   avgRent m <> NaN /\ avgRent m <> NInf /\ (forall x, avgRent m = Fin x -> (0 <= x)%Q)) /\
  (Forall (fun fp => positive (pricePerSqFt fp) = false) fps -> ms_avgPricePerSqFt m = NaN) /\
  ((exists fp, In fp fps /\ positive (pricePerSqFt fp) = true) ->
   Forall (fun fp => exists q, pricePerSqFt fp = Fin q) fps ->
   ms_avgPricePerSqFt m <> NaN /\ ms_avgPricePerSqFt m <> NInf /\
   (forall x, ms_avgPricePerSqFt m = Fin x -> (0 <= x)%Q)).
Proof.
  unfold createDailyReport in H. cbv zeta in H.
  destruct (reduce1 (pick_min price) fps); [|discriminate].
  destruct (reduce1 pick_max fps); [|discriminate].
  destruct (reduce1 (pick_min pricePerSqFt) fps); [|discriminate].
  injection H as <-. cbn [marketSummary totalUnits allFloorPlans avgRent ms_avgPricePerSqFt].
  split; [reflexivity|]. split; [reflexivity|]. split; [|split; [|split]].
  - intro Hn. rewrite (filter_positive_nil price fps Hn). reflexivity.
  - intros Hp Hf. apply fin_nonneg_sign.
    destruct (avg_nonneg price fps Hp Hf) as (q & -> & Hq).
    destruct (round_nonneg q Hq) as (k & -> & Hk). apply nz_nonneg_Q. exact Hk.
  - intro Hn. rewrite (filter_positive_nil pricePerSqFt fps Hn). reflexivity.
  - intros Hp Hf. apply fin_nonneg_sign.
    destruct (avg_nonneg pricePerSqFt fps Hp Hf) as (q & -> & Hq).
    apply cents_nonneg. exact Hq.
Qed.

End ReportAverages.

Section MainSummaries.
Import Aggregator Main.
Import ExtraSpec.


Lemma list_eqb_eq (a b : list ascii) : DataProcessor.list_eqb a b = true -> a = b.
Proof.
  unfold DataProcessor.list_eqb. intro H. apply String.eqb_eq in H.
  rewrite <- (list_ascii_of_string_of_list_ascii a), <- (list_ascii_of_string_of_list_ascii b).
  rewrite H. reflexivity.
Qed.

Lemma ltb_length_filter {A} (p : A -> bool) (l : list A) :
  Nat.ltb 0 (List.length (filter p l)) = existsb p l.
Proof.
  induction l as [|x l IH]; [reflexivity|]. cbn [filter existsb].
  destruct (p x); [reflexivity | exact IH].
Qed.

Lemma length_filter_orb (p q : FloorPlan -> bool) (l : list FloorPlan) :
  (forall x, p x = true -> q x = false) ->
  List.length (filter (fun x => p x || q x) l) =
  (List.length (filter p l) + List.length (filter q l))%nat.
Proof.
  intro Hx. induction l as [|x l IH]; [reflexivity|].
  rewrite !length_filter_cons, IH.
  destruct (p x) eqn:E; [rewrite (Hx x E)|]; destruct (q x); cbn; lia.
Qed.

(** X10: when phase 2 of [main] reports, it has one property summary for
    Camden Dunwoody if some floor plan carries that name and one for The
    Columns if some carries that one, in that order; together they count
    the floor plans of these two properties, while [totalUnits] counts all
    floor plans, the other properties' (Drift's) included. *)
Theorem main_phase2_summaries (camdenPlans columnsPlans driftPlans : list FloorPlan)
  (now : Z) (summaries : list PropertySummary) (r : DailyReport)
  (H : main_phase2 camdenPlans columnsPlans driftPlans now = Ok (Some (summaries, r))) :
  let all := camdenPlans ++ columnsPlans ++ driftPlans in
  map ps_propertyName summaries =
    (if existsb (is_named camden_name) all then [camden_name] else [])
    ++ (if existsb (is_named columns_name) all then [columns_name] else []) /\
  list_sum (map totalFloorPlans summaries) =
    List.length (filter (fun fp => is_named camden_name fp || is_named columns_name fp) all) /\
  totalUnits (marketSummary r) = List.length all /\
  allFloorPlans r = all /\ properties r = summaries.
Proof.
  unfold main_phase2 in H. cbv zeta in H.
  destruct (Nat.eqb _ 0); [discriminate|].
  rewrite !ltb_length_filter in H.
  destruct (createDailyReport _ _ now) as [r'|e] eqn:Er; [|discriminate].
  injection H as Hs Hr. subst r'.
  unfold createDailyReport in Er. cbv zeta in Er.
  destruct (reduce1 _ _); [|discriminate].
  destruct (reduce1 _ _); [|discriminate].
  destruct (reduce1 _ _); [|discriminate].
  injection Er as <-. cbn [marketSummary totalUnits allFloorPlans properties].
  subst summaries. rewrite length_filter_orb.
  2:{ intros fp E1. unfold is_named in *. apply list_eqb_eq in E1.
      destruct (DataProcessor.list_eqb _ _) eqn:E2; [|reflexivity].
      apply list_eqb_eq in E2. rewrite E1 in E2. discriminate. }
  fold (is_named camden_name). fold (is_named columns_name).
  rewrite <- !ltb_length_filter.
  split; [|split; [|split; [reflexivity|split; reflexivity]]].
  - destruct (Nat.ltb 0 _); destruct (Nat.ltb 0 _); reflexivity.
  - destruct (Nat.ltb 0 (List.length (filter (is_named camden_name) _))) eqn:E1;
    destruct (Nat.ltb 0 (List.length (filter (is_named columns_name) _))) eqn:E2;
    cbn [app map list_sum fold_right totalFloorPlans createPropertySummary];
    try apply Nat.ltb_ge in E1; try apply Nat.ltb_ge in E2; lia.
Qed.

End MainSummaries.

Section ColumnsExtraction.
Import Effects Columns.
Import ExtraSpec.


Lemma process_elements_total (els : list Element) (env : Env) (l : log_t) :
  exists l', process_elements els env l = (Ok (flat_map element_plans els), l').
Proof.
  revert l. induction els as [|el els IH]; intro l; [eexists; reflexivity|].
  cbn [process_elements flat_map]. unfold bind at 1.
  assert (Hh : exists l1, try_catch
     (_ <- lift (el_textContent el) ;;
      _ <- lift (el_innerHTML el) ;;
      log (chars "Processing element") ;;;
      match el_extracted el with
      | Some fp => log (chars "Successfully extracted: " ++ tp_name fp) ;;; ret [fp]
      | None => ret []
      end)
     (fun e => log (chars "Error processing element: " ++ e) ;;; ret []) env l
     = (Ok (element_plans el), l1)).
  { unfold element_plans, try_catch, bind, lift, log, ret.
    destruct (el_textContent el); [|eexists; reflexivity].
    destruct (el_innerHTML el); [|eexists; reflexivity].
    destruct (el_extracted el); eexists; reflexivity. }
  destruct Hh as [l1 ->]. unfold bind.
  destruct (IH l1) as [l2 ->]. eexists; reflexivity.
Qed.


Lemma first_selector_cases (sels : list (list ascii)) (env : Env) (l : log_t) :
  (fst (first_selector sels env l) = Ok [] <-> Forall (fun s => locate env s = Ok []) sels) /\
  (forall e, fst (first_selector sels env l) = Err e <-> found_at env sels (Err e)) /\
  (forall el els, fst (first_selector sels env l) = Ok (el :: els) <->
                  found_at env sels (Ok (el :: els))).
Proof.
  revert l. induction sels as [|s sels IH]; intro l.
  - cbn. split; [split; constructor|]. split; intros.
    + split; [discriminate|]. intros (pre & sel & post & H & _). destruct pre; discriminate.
    + split; [discriminate|]. intros (pre & sel & post & H & _). destruct pre; discriminate.
  - cbn [first_selector]. unfold bind, call, log, ret.
    destruct (locate env s) as [[|e0 es]|x] eqn:Es; cbv beta iota.
    + destruct (IH l) as (I1 & I2 & I3). split; [|split].
      * rewrite I1. split; [intro H; constructor; assumption|intro H; inversion H; assumption].
      * intro e. rewrite I2. split.
        -- intros (pre & sel & post & -> & Hp & Hs). exists (s :: pre), sel, post.
           split; [reflexivity|]. split; [constructor; assumption | assumption].
        -- intros (pre & sel & post & Heq & Hp & Hs). destruct pre as [|s' pre].
           ++ injection Heq as <- <-. congruence.
           ++ injection Heq as <- ->. inversion Hp; subst. exists pre, sel, post. auto.
      * intros el els. rewrite I3. split.
        -- intros (pre & sel & post & -> & Hp & Hs). exists (s :: pre), sel, post.
           split; [reflexivity|]. split; [constructor; assumption | assumption].
        -- intros (pre & sel & post & Heq & Hp & Hs). destruct pre as [|s' pre].
           ++ injection Heq as <- <-. congruence.
           ++ injection Heq as <- ->. inversion Hp; subst. exists pre, sel, post. auto.
    + unfold bind, log, ret. cbn [fst]. split; [|split].
      * split; [discriminate|]. intro H. inversion H. congruence.
      * intro e. split; [discriminate|].
        intros (pre & sel & post & Heq & Hp & Hs). destruct pre as [|s' pre].
        -- injection Heq as <- <-. congruence.
        -- injection Heq as <- ->. inversion Hp. congruence.
      * intros el els. split.
        -- intro H. injection H as <- <-. exists [], s, sels. auto.
        -- intros (pre & sel & post & Heq & Hp & Hs). destruct pre as [|s' pre].
           ++ injection Heq as <- <-. congruence.
           ++ injection Heq as <- ->. inversion Hp. congruence.
    + cbn [fst]. split; [|split].
      * split; [discriminate|]. intro H. inversion H. congruence.
      * intro e. split.
        -- intro H. injection H as <-. exists [], s, sels. auto.
        -- intros (pre & sel & post & Heq & Hp & Hs). destruct pre as [|s' pre].
           ++ injection Heq as <- <-. congruence.
           ++ injection Heq as <- ->. inversion Hp. congruence.
      * intros el els. split; [discriminate|].
        intros (pre & sel & post & Heq & Hp & Hs). destruct pre as [|s' pre].
        -- injection Heq as <- <-. congruence.
        -- injection Heq as <- ->. inversion Hp. congruence.
Qed.

Lemma scrapeColumns_pipeline_cases (env : Env) (l : log_t) (t : list ascii)
  (Hlaunch : launch env = Ok tt) (Hpage : newPage env = Ok tt)
  (Hhdr : setExtraHTTPHeaders env = Ok tt) (Hgoto : goto env = Ok tt)
  (Hwait : waitForLoad env = Ok tt) (Htitle : title env = Ok t)
  (Hcontent : waitForContent env = Ok tt) (Hclose : close env = Ok tt) :
  (forall el els, found_at env possibleSelectors (Ok (el :: els)) ->
     fst (scrapeColumns env l) = Ok (map process_plan (flat_map element_plans (el :: els)))) /\
  (Forall (fun s => locate env s = Ok []) possibleSelectors ->
     fst (scrapeColumns env l) = Ok []) /\
  (forall e, found_at env possibleSelectors (Err e) -> fst (scrapeColumns env l) = Ok []).
Proof.
  unfold scrapeColumns, extractColumnsFloorPlans, close_browser,
    try_finally, try_catch, bind, log, call, asks, ret, lift.
  cbv beta iota.
  rewrite Hlaunch, Hpage, Hhdr, Hgoto, Hwait, Htitle. cbv beta iota.
  rewrite Hcontent. cbv beta iota.
  match goal with |- context [first_selector possibleSelectors env ?l0] =>
    destruct (first_selector_cases possibleSelectors env l0) as (F1 & F2 & F3);
    destruct (first_selector possibleSelectors env l0) as [r l1] eqn:Ef
  end.
  cbn [fst] in F1, F2, F3.
  split; [|split].
  - intros el els H. apply F3 in H. subst r.
    destruct (process_elements_total (el :: els) env
                (l1 ++ [chars "Processing floor plan elements..."])) as [l2 Hp].
    unfold bind, log, ret in Hp. rewrite Hp. cbv beta iota. rewrite Hclose. reflexivity.
  - intro H. apply F1 in H. subst r. cbv beta iota.
    destruct (classNames env); destruct (bodyText env); rewrite ?Hclose; reflexivity.
  - intros e H. apply F2 in H. subst r. cbv beta iota. rewrite Hclose. reflexivity.
Qed.

(** X13: when navigation, the content wait and closing the browser succeed,
    [scrapeColumns] returns the processed plans of the elements of the
    first selector that finds any, skipping the elements whose text or HTML
    cannot be read; when no selector finds an element, or the first
    failing query comes first, it returns the empty list. *)
Theorem scrapeColumns_pipeline (env : Env) (l : log_t) (t : list ascii)
  (Hlaunch : launch env = Ok tt) (Hpage : newPage env = Ok tt)
  (Hhdr : setExtraHTTPHeaders env = Ok tt) (Hgoto : goto env = Ok tt)
  (Hwait : waitForLoad env = Ok tt) (Htitle : title env = Ok t)
  (Hcontent : waitForContent env = Ok tt) (Hclose : close env = Ok tt) :
  (forall el els, found_at env possibleSelectors (Ok (el :: els)) ->
     fst (scrapeColumns env l) = Ok (map process_plan (flat_map element_plans (el :: els)))) /\
  (Forall (fun s => locate env s = Ok []) possibleSelectors ->
     fst (scrapeColumns env l) = Ok []) /\
  (forall e, found_at env possibleSelectors (Err e) -> fst (scrapeColumns env l) = Ok []).
Proof.
  exact (scrapeColumns_pipeline_cases env l t Hlaunch Hpage Hhdr Hgoto Hwait Htitle
           Hcontent Hclose).
Qed.

End ColumnsExtraction.

Section CamdenExtraction.
Import Effects Camden.
Import ExtraSpec.


Lemma community_amenities_total (env : Env) (l : log_t) :
  exists l', community_amenities env l = (Ok (amenities_found env), l').
Proof.
  unfold community_amenities, amenities_found, try_catch, bind, call, log, ret.
  destruct (amenitiesLink env) as [[u|]|x]; cbv beta iota; [|eexists; reflexivity|eexists; reflexivity].
  destruct (clickAmenities env); cbv beta iota; [|eexists; reflexivity].
  destruct (waitForAmenities env); cbv beta iota; [|eexists; reflexivity].
  destruct (evaluateAmenities env); eexists; reflexivity.
Qed.

Lemma scrapeCamden_cards (env : Env) (l : log_t) (t : list ascii) (r : res (list RawPlan))
  (Hlaunch : launch env = Ok tt) (Hpage : newPage env = Ok tt)
  (Hhdr : setExtraHTTPHeaders env = Ok tt) (Hgoto : goto env = Ok tt)
  (Hwait : waitForLoad env = Ok tt) (Htitle : title env = Ok t)
  (Hsel : waitForSelector env = Ok tt)
  (Hcards : evaluateCards env (amenities_found env) = r)
  (Hclose : close env = Ok tt) :
  fst (scrapeCamden env l) = Ok (match r with Ok raws => map enhance raws | Err _ => [] end).
Proof.
  unfold scrapeCamden, extractCamdenFloorPlans, close_browser,
    try_finally, try_catch, bind, log, call, asks, ret.
  cbv beta iota.
  rewrite Hlaunch, Hpage, Hhdr, Hgoto, Hwait, Htitle. cbv beta iota.
  rewrite Hsel. cbv beta iota.
  match goal with |- context [community_amenities env ?l0] =>
    destruct (community_amenities_total env l0) as [l1 Ha]
  end.
  unfold try_catch, bind, log, ret in Ha. rewrite Ha. cbv beta iota.
  rewrite Hcards. destruct r; cbv beta iota; rewrite Hclose; reflexivity.
Qed.

(** X15: when navigation, the card selector wait, the card evaluation and
    closing the browser succeed, [scrapeCamden] returns the enhanced cards,
    evaluated with the community amenities found, or with none when the
    optional amenities step fails. *)
Theorem scrapeCamden_pipeline (env : Env) (l : log_t) (t : list ascii) (raws : list RawPlan)
  (Hlaunch : launch env = Ok tt) (Hpage : newPage env = Ok tt)
  (Hhdr : setExtraHTTPHeaders env = Ok tt) (Hgoto : goto env = Ok tt)
  (Hwait : waitForLoad env = Ok tt) (Htitle : title env = Ok t)
  (Hsel : waitForSelector env = Ok tt)
  (Hcards : evaluateCards env (amenities_found env) = Ok raws)
  (Hclose : close env = Ok tt) :
  fst (scrapeCamden env l) = Ok (map enhance raws).
Proof.
  exact (scrapeCamden_cards env l t (Ok raws) Hlaunch Hpage Hhdr Hgoto Hwait Htitle Hsel
           Hcards Hclose).
Qed.

End CamdenExtraction.

(** ** The error boundary of the two extractors *)

Section ScraperBoundary.
Import Effects ExtraSpec.

Lemma scrapeColumns_reached_failure (env : Columns.Env) (l : log_t) (e : js_error) :
  (Columns.launch env = Err e \/ Columns.newPage env = Err e \/
   Columns.setExtraHTTPHeaders env = Err e \/ Columns.goto env = Err e \/
   Columns.waitForLoad env = Err e \/ Columns.title env = Err e \/
   Columns.waitForContent env = Err e \/ found_at env Columns.possibleSelectors (Err e)) ->
  Columns.close env = Ok tt ->
  fst (Columns.scrapeColumns env l) = Ok [].
Proof.
  intros H Hc.
  destruct H as [H|[H|[H|[H|[H|[H|[H|H]]]]]]];
    try (apply (scrapeColumns_site_failure env l e); [tauto | exact Hc]).
  destruct (Columns.launch env) as [[]|x] eqn:E1;
    [|apply (scrapeColumns_site_failure env l x); [tauto | exact Hc]].
  destruct (Columns.newPage env) as [[]|x] eqn:E2;
    [|apply (scrapeColumns_site_failure env l x); [tauto | exact Hc]].
  destruct (Columns.setExtraHTTPHeaders env) as [[]|x] eqn:E3;
    [|apply (scrapeColumns_site_failure env l x); [tauto | exact Hc]].
  destruct (Columns.goto env) as [[]|x] eqn:E4;
    [|apply (scrapeColumns_site_failure env l x); [tauto | exact Hc]].
  destruct (Columns.waitForLoad env) as [[]|x] eqn:E5;
    [|apply (scrapeColumns_site_failure env l x); [tauto | exact Hc]].
  destruct (Columns.title env) as [t|x] eqn:E6;
    [|apply (scrapeColumns_site_failure env l x); [tauto | exact Hc]].
  destruct (Columns.waitForContent env) as [[]|x] eqn:E7;
    [|apply (scrapeColumns_site_failure env l x); [tauto | exact Hc]].
  exact (proj2 (proj2 (scrapeColumns_pipeline_cases env l t E1 E2 E3 E4 E5 E6 E7 Hc)) e H).
Qed.

Lemma scrapeCamden_reached_failure (env : Camden.Env) (l : log_t) (e : js_error) :
  (Camden.launch env = Err e \/ Camden.newPage env = Err e \/
   Camden.setExtraHTTPHeaders env = Err e \/ Camden.goto env = Err e \/
   Camden.waitForLoad env = Err e \/ Camden.title env = Err e \/
   Camden.waitForSelector env = Err e \/
   Camden.evaluateCards env (amenities_found env) = Err e) ->
  Camden.close env = Ok tt ->
  fst (Camden.scrapeCamden env l) = Ok [].
Proof.
  intros H Hc.
  destruct H as [H|[H|[H|[H|[H|[H|[H|H]]]]]]];
    try (apply (scrapeCamden_site_failure env l e); [tauto | exact Hc]).
  destruct (Camden.launch env) as [[]|x] eqn:E1;
    [|apply (scrapeCamden_site_failure env l x); [tauto | exact Hc]].
  destruct (Camden.newPage env) as [[]|x] eqn:E2;
    [|apply (scrapeCamden_site_failure env l x); [tauto | exact Hc]].
  destruct (Camden.setExtraHTTPHeaders env) as [[]|x] eqn:E3;
    [|apply (scrapeCamden_site_failure env l x); [tauto | exact Hc]].
  destruct (Camden.goto env) as [[]|x] eqn:E4;
    [|apply (scrapeCamden_site_failure env l x); [tauto | exact Hc]].
  destruct (Camden.waitForLoad env) as [[]|x] eqn:E5;
    [|apply (scrapeCamden_site_failure env l x); [tauto | exact Hc]].
  destruct (Camden.title env) as [t|x] eqn:E6;
    [|apply (scrapeCamden_site_failure env l x); [tauto | exact Hc]].
  destruct (Camden.waitForSelector env) as [[]|x] eqn:E7;
    [|apply (scrapeCamden_site_failure env l x); [tauto | exact Hc]].
  exact (scrapeCamden_cards env l t (Err e) E1 E2 E3 E4 E5 E6 E7 H Hc).
Qed.

Lemma amenities_found_failed (env : Camden.Env) (x : js_error) :
  (Camden.amenitiesLink env = Err x \/
   (exists u, Camden.amenitiesLink env = Ok (Some u)) /\
   (Camden.clickAmenities env = Err x \/ Camden.waitForAmenities env = Err x \/
    Camden.evaluateAmenities env = Err x)) ->
  amenities_found env = [].
Proof.
  unfold amenities_found. intros [H|[[u Hu] H]]; [rewrite H; reflexivity|].
  rewrite Hu. destruct H as [H|[H|H]]; rewrite H;
    destruct (Camden.clickAmenities env); destruct (Camden.waitForAmenities env);
    destruct (Camden.evaluateAmenities env); reflexivity.
Qed.

(** C7 (amended): [scrapeCamden] and [scrapeColumns] throw exactly when the
    browser was launched and closing it throws, with the error of
    [browser.close].  When the browser closes normally, an error of a
    navigation step (launch, new page, headers, [goto], the wait, the
    title) or of the site-level extraction gives the empty list: The
    Columns' content wait, or the first selector query that throws before
    any selector has found elements; Camden's card selector wait, or the
    card evaluation on the community amenities actually found.  Errors of
    single elements (The Columns) and of the optional amenities step
    (Camden) are skipped: the other elements still give their plans, and
    the cards are evaluated with no community amenities, so the list can
    be non-empty. *)
Theorem scrapers_error_boundary :
  (forall env l e, fst (Columns.scrapeColumns env l) = Err e <->
     (exists u, Columns.launch env = Ok u) /\ Columns.close env = Err e) /\
  (forall env l e, fst (Camden.scrapeCamden env l) = Err e <->
     (exists u, Camden.launch env = Ok u) /\ Camden.close env = Err e) /\
  (forall env l e,
     (Columns.launch env = Err e \/ Columns.newPage env = Err e \/
      Columns.setExtraHTTPHeaders env = Err e \/ Columns.goto env = Err e \/
      Columns.waitForLoad env = Err e \/ Columns.title env = Err e \/
      Columns.waitForContent env = Err e \/
      found_at env Columns.possibleSelectors (Err e)) ->
     Columns.close env = Ok tt ->
     fst (Columns.scrapeColumns env l) = Ok []) /\
  (forall env l e,
     (Camden.launch env = Err e \/ Camden.newPage env = Err e \/
      Camden.setExtraHTTPHeaders env = Err e \/ Camden.goto env = Err e \/
      Camden.waitForLoad env = Err e \/ Camden.title env = Err e \/
      Camden.waitForSelector env = Err e \/
      Camden.evaluateCards env (amenities_found env) = Err e) ->
     Camden.close env = Ok tt ->
     fst (Camden.scrapeCamden env l) = Ok []) /\
  (forall env l t el els,
     Columns.launch env = Ok tt -> Columns.newPage env = Ok tt ->
     Columns.setExtraHTTPHeaders env = Ok tt -> Columns.goto env = Ok tt ->
     Columns.waitForLoad env = Ok tt -> Columns.title env = Ok t ->
     Columns.waitForContent env = Ok tt -> Columns.close env = Ok tt ->
     found_at env Columns.possibleSelectors (Ok (el :: els)) ->
     fst (Columns.scrapeColumns env l) =
       Ok (map Columns.process_plan (flat_map element_plans (el :: els)))) /\
  (forall env l t raws x,
     Camden.launch env = Ok tt -> Camden.newPage env = Ok tt ->
     Camden.setExtraHTTPHeaders env = Ok tt -> Camden.goto env = Ok tt ->
     Camden.waitForLoad env = Ok tt -> Camden.title env = Ok t ->
     Camden.waitForSelector env = Ok tt -> Camden.close env = Ok tt ->
     (Camden.amenitiesLink env = Err x \/
      (exists u, Camden.amenitiesLink env = Ok (Some u)) /\
      (Camden.clickAmenities env = Err x \/ Camden.waitForAmenities env = Err x \/
       Camden.evaluateAmenities env = Err x)) ->
     Camden.evaluateCards env [] = Ok raws ->
     fst (Camden.scrapeCamden env l) = Ok (map Camden.enhance raws)).
Proof.
  split; [exact scrapeColumns_err|].
  split; [exact scrapeCamden_err|].
  split; [exact scrapeColumns_reached_failure|].
  split; [exact scrapeCamden_reached_failure|].
  split.
  - intros env l t el els E1 E2 E3 E4 E5 E6 E7 Hc.
    exact (proj1 (scrapeColumns_pipeline_cases env l t E1 E2 E3 E4 E5 E6 E7 Hc) el els).
  - intros env l t raws x E1 E2 E3 E4 E5 E6 E7 Hc Ha Hcards.
    rewrite <- (amenities_found_failed env x Ha) in Hcards.
    exact (scrapeCamden_cards env l t (Ok raws) E1 E2 E3 E4 E5 E6 E7 Hcards Hc).
Qed.

Lemma scrapers_error_boundary_witness :
  found_at selector_fail_env Columns.possibleSelectors
    (Err (chars "Error: locator.all: Target page, context or browser has been closed")) /\
  Columns.close selector_fail_env = Ok tt /\
  fst (Columns.scrapeColumns selector_fail_env []) = Ok [].
Proof.
  assert (Hf : found_at selector_fail_env Columns.possibleSelectors
    (Err (chars "Error: locator.all: Target page, context or browser has been closed"))).
  { exists [chars ".floor-plan"], (chars ".floorplan"), (tl (tl Columns.possibleSelectors)).
    split; [vm_compute; reflexivity|].
    split; [constructor; [vm_compute; reflexivity | constructor] | vm_compute; reflexivity]. }
  split; [exact Hf|]. split; [reflexivity|].
  apply (proj1 (proj2 (proj2 scrapers_error_boundary)) selector_fail_env []
           (chars "Error: locator.all: Target page, context or browser has been closed")).
  - do 7 right. exact Hf.
  - reflexivity.
Defined.

End ScraperBoundary.


Section StorageExtras.
Import Effects.

Lemma split_on_prefix (c : ascii) (D R : list ascii) :
  (forall x, In x D -> x <> c) -> exists ws, split_on c (D ++ c :: R) = D :: ws.
Proof.
  induction D as [|a D IH]; intros HD; simpl.
  - rewrite (proj2 (Ascii.eqb_eq c c) eq_refl). eexists; reflexivity.
  - destruct (Ascii.eqb a c) eqn:E.
    + apply Ascii.eqb_eq in E. exfalso. exact (HD a (or_introl eq_refl) E).
    + destruct (IH (fun x Hx => HD x (or_intror Hx))) as [ws ->]. eexists; reflexivity.
Qed.

Lemma toISOString_split (t : Z) :
  exists ws, split_on "T"%char (toISOString t) = iso_date_part (t / ms_per_day) :: ws.
Proof. apply split_on_prefix. apply iso_date_part_not_T. Qed.

Lemma iso_date_part_not_nil (days : Z) : iso_date_part days <> [].
Proof.
  unfold iso_date_part. destruct (civil_from_days days) as [[y m] d].
  intro H. apply app_eq_nil in H. destruct H as [_ H]. discriminate.
Qed.

(** X16: the date stamp of a daily report is the "YYYY-MM-DD" part of the
    ISO time stamp of the UTC day; the [toDateString] fallback is never
    used. *)
Theorem date_stamp_iso (t : Z) :
  Aggregator.date_stamp t = iso_date_part (t / ms_per_day).
Proof.
  unfold Aggregator.date_stamp. destruct (toISOString_split t) as [ws ->].
  destruct (iso_date_part (t / ms_per_day)) as [|a d] eqn:E; [|reflexivity].
  exfalso. exact (iso_date_part_not_nil _ E).
Qed.

(** X17: [saveScrapingResult] writes to "<dataDir>/<source lower-cased,
    white-space runs replaced by a hyphen>-<YYYY-MM-DD>.json", so two saves
    of results of the same source on the same UTC day write the same
    file. *)
Theorem resultFilePath_day (svc : Storage.StorageService) (result : Storage.ScrapingResult)
  (t : Z) :
  Storage.resultFilePath svc result t =
  Storage.path_join (Storage.dataDir svc)
    (replace_all DataProcessor.spaces_re ["-"%char] (toLowerCase (Storage.source result))
     ++ "-"%char :: iso_date_part (t / ms_per_day) ++ chars ".json") /\
  (forall t', t' / ms_per_day = t / ms_per_day ->
   Storage.resultFilePath svc result t' = Storage.resultFilePath svc result t).
Proof.
  assert (H : forall t, Storage.resultFilePath svc result t =
    Storage.path_join (Storage.dataDir svc)
      (replace_all DataProcessor.spaces_re ["-"%char] (toLowerCase (Storage.source result))
       ++ "-"%char :: iso_date_part (t / ms_per_day) ++ chars ".json")).
  { intro t0. unfold Storage.resultFilePath. destruct (toISOString_split t0) as [ws ->].
    reflexivity. }
  split; [apply H|]. intros t' Ht. rewrite !H, Ht. reflexivity.
Qed.

Lemma ensure_dir_ok (svc : Storage.StorageService) (env : Storage.Env) (l : log_t) :
  (is_ok (Storage.access env (Storage.dataDir svc))
   || is_ok (Storage.mkdir env (Storage.dataDir svc)))%bool = true ->
  Storage.ensureDataDirectory svc env l = (Ok tt, l).
Proof.
  intro Hdir. unfold Storage.ensureDataDirectory, try_catch, call.
  destruct (Storage.access env (Storage.dataDir svc)) as [[]|x]; [reflexivity|].
  destruct (Storage.mkdir env (Storage.dataDir svc)) as [[]|y]; [reflexivity|].
  discriminate Hdir.
Qed.

(** X18: once the data directory is there (or created), [saveDailyReport]
    and [saveScrapingResult] log one "saved to" line with the path on
    success, and log and rethrow an error of [JSON.stringify]. *)
Theorem save_outcomes (svc : Storage.StorageService) (env : Storage.Env) (l : log_t)
  (report : DailyReport) (result : Storage.ScrapingResult)
  (Hdir : (is_ok (Storage.access env (Storage.dataDir svc))
           || is_ok (Storage.mkdir env (Storage.dataDir svc)))%bool = true) :
  (forall data, Storage.stringifyReport env report = Ok data ->
   Storage.writeFile env (Storage.pricesFile svc) data = Ok tt ->
   Storage.saveDailyReport svc report env l =
   (Ok tt, l ++ [chars "Daily report saved to " ++ Storage.pricesFile svc])) /\
  (forall e, Storage.stringifyReport env report = Err e ->
   Storage.saveDailyReport svc report env l =
   (Err e, l ++ [chars "Error saving daily report: " ++ e])) /\
  (forall data, Storage.stringifyResult env result = Ok data ->
   Storage.writeFile env (Storage.resultFilePath svc result (Storage.now env)) data = Ok tt ->
   Storage.saveScrapingResult svc result env l =
   (Ok tt, l ++ [chars "Scraping result saved to " ++
                 Storage.resultFilePath svc result (Storage.now env)])) /\
  (forall e, Storage.stringifyResult env result = Err e ->
   Storage.saveScrapingResult svc result env l =
   (Err e, l ++ [chars "Error saving scraping result: " ++ e])).
Proof.
  pose proof (ensure_dir_ok svc env l Hdir) as Hens.
  split; [|split; [|split]].
  - intros data Hs Hw. unfold Storage.saveDailyReport, bind at 1. rewrite Hens.
    unfold try_catch, bind, call, log. rewrite Hs, Hw. reflexivity.
  - intros e Hs. unfold Storage.saveDailyReport, bind at 1. rewrite Hens.
    unfold try_catch, bind, call, log, throw. rewrite Hs. reflexivity.
  - intros data Hs Hw. unfold Storage.saveScrapingResult, bind at 1. rewrite Hens.
    unfold try_catch, bind, asks, call, log. rewrite Hs, Hw. reflexivity.
  - intros e Hs. unfold Storage.saveScrapingResult, bind at 1. rewrite Hens.
    unfold try_catch, bind, asks, call, log, throw. rewrite Hs. reflexivity.
Qed.

(** X19: when the data directory is missing and [mkdir] fails, the save
    operations throw [mkdir]'s error without logging anything; the
    "Error saving" handler only covers the serialisation and the write. *)
Theorem save_dir_error (svc : Storage.StorageService) (env : Storage.Env) (l : log_t)
  (report : DailyReport) (result : Storage.ScrapingResult) (x e : js_error)
  (Hacc : Storage.access env (Storage.dataDir svc) = Err x)
  (Hmk : Storage.mkdir env (Storage.dataDir svc) = Err e) :
  Storage.saveDailyReport svc report env l = (Err e, l) /\
  Storage.saveScrapingResult svc result env l = (Err e, l).
Proof.
  unfold Storage.saveDailyReport, Storage.saveScrapingResult, Storage.ensureDataDirectory,
    try_catch, bind, call. rewrite Hacc, Hmk. split; reflexivity.
Qed.

(** X20: [loadDailyReport] returns the parsed report when the file reads
    and parses; an error of the read or of the parse with code "ENOENT"
    gives [null] silently, any other one is logged and rethrown. *)
Theorem loadDailyReport_outcomes (svc : Storage.StorageService) (env : StorageLoad.LoadEnv)
  (l : log_t) :
  (forall data r, StorageLoad.readFile env (Storage.pricesFile svc) = Ok data ->
   StorageLoad.parse env data = Ok r ->
   StorageLoad.loadDailyReport svc env l = (Ok (Some r), l)) /\
  (forall e, (StorageLoad.readFile env (Storage.pricesFile svc) = Err e \/
              exists data, StorageLoad.readFile env (Storage.pricesFile svc) = Ok data /\
                           StorageLoad.parse env data = Err e) ->
   (StorageLoad.error_code env e = Some (chars "ENOENT") ->
    StorageLoad.loadDailyReport svc env l = (Ok None, l)) /\
   (StorageLoad.error_code env e <> Some (chars "ENOENT") ->
    StorageLoad.loadDailyReport svc env l =
    (Err e, l ++ [chars "Error loading daily report: " ++ e]))).
Proof.
  split.
  - intros data r Hr Hp. unfold StorageLoad.loadDailyReport, try_catch, bind, call, ret.
    rewrite Hr, Hp. reflexivity.
  - intros e He.
    assert (Hl : StorageLoad.loadDailyReport svc env l =
      match StorageLoad.error_code env e with
      | Some c => if DataProcessor.list_eqb c (chars "ENOENT") then (Ok None, l)
                  else (Err e, l ++ [chars "Error loading daily report: " ++ e])
      | None => (Err e, l ++ [chars "Error loading daily report: " ++ e])
      end).
    { unfold StorageLoad.loadDailyReport, try_catch, bind, call, asks, ret, log, throw.
      destruct He as [He|(data & Hr & Hp)]; [rewrite He | rewrite Hr, Hp]; cbv beta iota zeta;
        destruct (StorageLoad.error_code env e) as [c|]; try reflexivity;
        destruct (DataProcessor.list_eqb c (chars "ENOENT")); reflexivity. }
    rewrite Hl. split.
    + intros ->. reflexivity.
    + intro Hc. destruct (StorageLoad.error_code env e) as [c|]; [|reflexivity].
      destruct (DataProcessor.list_eqb c (chars "ENOENT")) eqn:E; [|reflexivity].
      apply list_eqb_eq in E. subst c. contradiction.
Qed.

End StorageExtras.

Section TrimProps.

Lemma trim_start_head (s : list ascii) (c : ascii) (t : list ascii) :
  trim_start s = c :: t -> is_space c = false.
Proof.
  induction s as [|a s IH]; cbn [trim_start]; [discriminate|].
  destruct (is_space a) eqn:E; [exact IH|]. intro H. injection H as <- _. exact E.
Qed.

Lemma trim_start_suffix (s : list ascii) : exists p, s = p ++ trim_start s.
Proof.
  induction s as [|a s [p Hp]]; cbn [trim_start]; [exists []; reflexivity|].
  destruct (is_space a); [exists (a :: p); cbn; congruence | exists []; reflexivity].
Qed.

Lemma trim_first (s : list ascii) (c : ascii) (t : list ascii) :
  trim s = c :: t -> is_space c = false.
Proof.
  unfold trim. intro H.
  destruct (trim_start_suffix (rev (trim_start s))) as [p Hp].
  destruct (trim_start s) as [|a u] eqn:E.
  - destruct p; discriminate.
  - apply (f_equal (@rev ascii)) in Hp. rewrite rev_involutive, rev_app_distr, H in Hp.
    cbn in Hp. injection Hp as <- _. exact (trim_start_head s a u E).
Qed.

Lemma trim_last (s : list ascii) (c : ascii) (t : list ascii) :
  trim s = t ++ [c] -> is_space c = false.
Proof.
  unfold trim. intro H. apply (f_equal (@rev ascii)) in H.
  rewrite rev_involutive, rev_app_distr in H. cbn in H.
  exact (trim_start_head _ _ _ H).
Qed.

(** X21: [cleanFloorPlanName] never returns the empty string, and its
    result neither starts nor ends with white space. *)
Theorem cleanFloorPlanName_trimmed (name : list ascii) :
  let r := DataProcessor.cleanFloorPlanName name in
  r <> [] /\ (forall c t, r = c :: t -> is_space c = false) /\
  (forall c t, r = t ++ [c] -> is_space c = false).
Proof.
  assert (Hu : DataProcessor.unknown_plan <> [] /\
    (forall c t, DataProcessor.unknown_plan = c :: t -> is_space c = false) /\
    (forall c t, DataProcessor.unknown_plan = t ++ [c] -> is_space c = false)).
  { split; [discriminate|]. split.
    - intros c t H. injection H as <- _. reflexivity.
    - intros c t H. assert (Hc : c = last DataProcessor.unknown_plan " "%char)
        by (rewrite H, last_last; reflexivity). subst c. vm_compute. reflexivity. }
  unfold DataProcessor.cleanFloorPlanName. cbv zeta.
  destruct (negb (is_truthy_str name)); [exact Hu|].
  match goal with |- context [match trim ?x with [] => _ | _ :: _ => _ end] =>
    destruct (trim x) as [|a u] eqn:E
  end; [exact Hu|].
  split; [discriminate|]. split.
  - intros c t H. rewrite H in E. exact (trim_first _ _ _ E).
  - intros c t H. rewrite H in E. exact (trim_last _ _ _ E).
Qed.

End TrimProps.


Section CollectProps.
Import ExtraSpec.


Lemma phase1_results (camden columns drift : res (list FloorPlan)) (t1 t2 t3 : Z) :
  let '(all, results) := Collect.phase1 camden columns drift t1 t2 t3 in
  all = ok_or_nil camden ++ ok_or_nil columns ++ ok_or_nil drift /\
  map Storage.source results =
    [chars "Camden Dunwoody"; chars "The Columns at Lake Ridge"; chars "Drift Dunwoody"] /\
  map Storage.success results = [is_ok camden; is_ok columns; is_ok drift] /\
  map Storage.floorPlans results = [ok_or_nil camden; ok_or_nil columns; ok_or_nil drift] /\
  Forall (fun r => Storage.success r = true <-> Storage.errors r = []) results.
Proof.
  unfold Collect.phase1, Collect.site_result.
  destruct camden as [c|ec]; destruct columns as [l|el]; destruct drift as [d|ed];
    cbv beta iota zeta;
    cbn [map Storage.source Storage.success Storage.floorPlans Storage.errors ok_or_nil is_ok app];
    (split; [reflexivity|]); (split; [reflexivity|]); (split; [reflexivity|]);
    (split; [reflexivity|]);
    repeat constructor; discriminate.
Qed.

(** X24: in phase 1 of [main], Camden's and The Columns' scraping results
    are failures exactly when the browser was launched and closing it
    threw; Drift's when its scraper threw. *)
Theorem main_phase1_scraper_status (envA : Camden.Env) (la : Effects.log_t) (envB : Columns.Env)
  (lb : Effects.log_t) (drift : res (list FloorPlan)) (t1 t2 t3 : Z) :
  let '(_, results) := Collect.phase1 (fst (Camden.scrapeCamden envA la))
                         (fst (Columns.scrapeColumns envB lb)) drift t1 t2 t3 in
  map Storage.success results =
  [negb ((is_ok (Camden.launch envA)) && negb (is_ok (Camden.close envA)))%bool;
   negb ((is_ok (Columns.launch envB)) && negb (is_ok (Columns.close envB)))%bool;
   is_ok drift].
Proof.
  pose proof (phase1_results (fst (Camden.scrapeCamden envA la))
                (fst (Columns.scrapeColumns envB lb)) drift t1 t2 t3) as H.
  destruct (Collect.phase1 _ _ _ _ _ _) as [all results].
  destruct H as (_ & _ & -> & _).
  f_equal; [|f_equal].
  - destruct (fst (Camden.scrapeCamden envA la)) as [p|e] eqn:E.
    + destruct (Camden.launch envA) as [u|x] eqn:L; [|reflexivity].
      destruct (Camden.close envA) as [v|y] eqn:C; [reflexivity|].
      exfalso. assert (Hc : fst (Camden.scrapeCamden envA la) = Err y)
        by (apply scrapeCamden_err; eauto). congruence.
    + apply scrapeCamden_err in E. destruct E as [[u ->] ->]. reflexivity.
  - destruct (fst (Columns.scrapeColumns envB lb)) as [p|e] eqn:E.
    + destruct (Columns.launch envB) as [u|x] eqn:L; [|reflexivity].
      destruct (Columns.close envB) as [v|y] eqn:C; [reflexivity|].
      exfalso. assert (Hc : fst (Columns.scrapeColumns envB lb) = Err y)
        by (apply scrapeColumns_err; eauto). congruence.
    + apply scrapeColumns_err in E. destruct E as [[u ->] ->]. reflexivity.
Qed.

End CollectProps.

(** X22: [standardizeAvailability] never returns the empty string. *)
Theorem standardizeAvailability_not_nil (availability : list ascii) :
  DataProcessor.standardizeAvailability availability <> [].
Proof.
  unfold DataProcessor.standardizeAvailability. cbv zeta.
  destruct availability as [|a t]; [discriminate|]. cbn [is_truthy_str negb].
  destruct (_ || _)%bool; [discriminate|].
  destruct (_ || _)%bool; [discriminate|].
  destruct (group1 _); discriminate.
Qed.

(** ** Further properties of the parsers, the scrapers and [main] *)

Section FurtherProps.
Import Effects ExtraSpec.









(** X5: on a finite price and area, [calculatePricePerSqFt] returns 0 when
    either is zero or negative, and never returns NaN, a negative number
    or [-Infinity]. *)
Theorem calculatePricePerSqFt_sign (p s : Q) :
  let v := DataProcessor.calculatePricePerSqFt (Fin p) (Fin s) in
  ((p <= 0)%Q \/ (s <= 0)%Q -> v = nz 0) /\
  v <> NaN /\ v <> NInf /\ (forall x, v = Fin x -> (0 <= x)%Q).
Proof.
  split.
  - intro H. destruct (calc_cases p s) as [[_ E]|[[Hp Hs] _]]; [exact E|].
    exfalso. destruct H; lra.
  - apply fin_nonneg_sign, calc_fin_nonneg.
Qed.

Lemma calculatePricePerSqFt_sign_witness :
  (0 <= 0)%Q /\ DataProcessor.calculatePricePerSqFt (Fin 1450) (Fin 0) = nz 0.
Proof.
  assert (H : (0 <= 0)%Q) by (apply Qle_refl).
  split; [exact H|]. exact (proj1 (calculatePricePerSqFt_sign 1450 0) (or_intror H)).
Defined.

(** X6: The Columns' scraper computes the price per square foot of each
    plan inline, and its value is always the one
    [DataProcessor.calculatePricePerSqFt] gives on the plan's price and
    area. *)
Theorem process_plan_pricePerSqFt (plan : Columns.TempPlan) :
  let fp := Columns.process_plan plan in
  pricePerSqFt fp = DataProcessor.calculatePricePerSqFt (price fp) (squareFootage fp).
Proof. exact (process_plan_ppsf_calc plan). Qed.

(** X11: the per-element loop of [extractColumnsFloorPlans] never throws:
    it returns the extracted plans of the elements whose text and HTML
    could be read, in page order. *)
Theorem process_elements_never_throws (els : list Columns.Element) (env : Columns.Env)
  (l : log_t) :
  exists l', Columns.process_elements els env l = (Ok (flat_map element_plans els), l').
Proof. exact (process_elements_total els env l). Qed.

(** X12: the selector loop of [extractColumnsFloorPlans] returns the
    elements of the first selector whose query finds any, the empty list
    when every query finds none, and throws the error of a failing query
    reached before any element is found. *)
Theorem first_selector_first_found (sels : list (list ascii)) (env : Columns.Env)
  (l : log_t) :
  (fst (Columns.first_selector sels env l) = Ok [] <->
   Forall (fun s => Columns.locate env s = Ok []) sels) /\
  (forall e, fst (Columns.first_selector sels env l) = Err e <-> found_at env sels (Err e)) /\
  (forall el els, fst (Columns.first_selector sels env l) = Ok (el :: els) <->
                  found_at env sels (Ok (el :: els))).
Proof. exact (first_selector_cases sels env l). Qed.

(** X14: the optional amenities step of [extractCamdenFloorPlans] never
    throws: it gives the amenities read after following the link when
    every step succeeds, and none otherwise. *)
Theorem community_amenities_never_throws (env : Camden.Env) (l : log_t) :
  exists l', Camden.community_amenities env l = (Ok (amenities_found env), l').
Proof. exact (community_amenities_total env l). Qed.

(** X23: phase 1 of [main] never stops at a failing scraper: it collects
    the floor plans of the scrapers that returned, in the order Camden,
    The Columns, Drift, and records one result per site in that order,
    successful exactly when the scraper returned, with its floor plans,
    and with no error exactly when successful. *)
Theorem main_phase1_results (camden columns drift : res (list FloorPlan)) (t1 t2 t3 : Z) :
  let '(all, results) := Collect.phase1 camden columns drift t1 t2 t3 in
  all = ok_or_nil camden ++ ok_or_nil columns ++ ok_or_nil drift /\
  map Storage.source results =
    [chars "Camden Dunwoody"; chars "The Columns at Lake Ridge"; chars "Drift Dunwoody"] /\
  map Storage.success results = [is_ok camden; is_ok columns; is_ok drift] /\
  map Storage.floorPlans results = [ok_or_nil camden; ok_or_nil columns; ok_or_nil drift] /\
  Forall (fun r => Storage.success r = true <-> Storage.errors r = []) results.
Proof. exact (phase1_results camden columns drift t1 t2 t3). Qed.

End FurtherProps.

(** ** Witnesses of the further properties with hypotheses *)

Section FurtherWitnesses.
Import Effects ExtraSpec.


Lemma createDailyReport_averages_witness :
  exists r, Aggregator.createDailyReport [] [sample_plan; unpriced_plan] 0 = Ok r /\
    totalUnits (marketSummary r) = 2%nat.
Proof.
  destruct (Aggregator.createDailyReport [] [sample_plan; unpriced_plan] 0) as [r|e] eqn:E.
  - exists r. split; [reflexivity|].
    exact (proj1 (createDailyReport_averages [] [sample_plan; unpriced_plan] 0 r E)).
  - vm_compute in E. discriminate E.
Defined.

Lemma main_phase2_summaries_witness :
  exists summaries r, Main.main_phase2 [sample_plan] [] [] 0 = Ok (Some (summaries, r)) /\
    map ps_propertyName summaries = [Main.camden_name].
Proof.
  destruct (Main.main_phase2 [sample_plan] [] [] 0) as [[[summaries r]|]|e] eqn:E.
  - exists summaries, r. split; [reflexivity|].
    rewrite (proj1 (main_phase2_summaries [sample_plan] [] [] 0 summaries r E)).
    vm_compute. reflexivity.
  - vm_compute in E. discriminate E.
  - vm_compute in E. discriminate E.
Defined.

Lemma scrapeColumns_pipeline_witness :
  fst (Columns.scrapeColumns flaky_page_env []) =
  Ok (map Columns.process_plan (flat_map element_plans
        [Columns.mkElement (Err (chars "Error: Element is not attached")) (Ok []) None;
         Columns.mkElement (Ok (Some (chars "A1"))) (Ok []) (Some good_plan)])).
Proof.
  apply (proj1 (scrapeColumns_pipeline flaky_page_env [] (chars "The Columns")
                  eq_refl eq_refl eq_refl eq_refl eq_refl eq_refl eq_refl eq_refl)).
  exists [], (chars ".floor-plan"), (tl Columns.possibleSelectors).
  split; [reflexivity|]. split; [constructor|]. vm_compute. reflexivity.
Defined.

Lemma scrapeCamden_pipeline_witness :
  fst (Camden.scrapeCamden camden_sample_env []) = Ok [Camden.enhance sample_raw].
Proof.
  exact (scrapeCamden_pipeline camden_sample_env [] (chars "Camden Dunwoody") [sample_raw]
           eq_refl eq_refl eq_refl eq_refl eq_refl eq_refl eq_refl eq_refl eq_refl).
Defined.

Lemma save_outcomes_witness :
  Storage.saveDailyReport (Storage.mkStorageService (chars "data")) sample_report
    (Storage.mkEnv (fun _ => Ok tt) (fun _ => Ok tt) (fun _ _ => Ok tt) 0
       (fun _ => Ok (chars "{}")) (fun _ => Ok (chars "{}"))) [] =
  (Ok tt, [chars "Daily report saved to " ++ chars "data/prices.json"]).
Proof.
  apply (proj1 (save_outcomes (Storage.mkStorageService (chars "data"))
                  (Storage.mkEnv (fun _ => Ok tt) (fun _ => Ok tt) (fun _ _ => Ok tt) 0
                     (fun _ => Ok (chars "{}")) (fun _ => Ok (chars "{}")))
                  [] sample_report sample_result eq_refl) (chars "{}")); reflexivity.
Defined.

Lemma save_dir_error_witness :
  Storage.saveDailyReport (Storage.mkStorageService (chars "data")) sample_report nodir_env [] =
  (Err (chars "Error: EACCES: permission denied"), []).
Proof.
  exact (proj1 (save_dir_error (Storage.mkStorageService (chars "data")) nodir_env []
                  sample_report sample_result
                  (chars "Error: ENOENT: no such file or directory")
                  (chars "Error: EACCES: permission denied") eq_refl eq_refl)).
Defined.

End FurtherWitnesses.
